(** * Websites-Scraper: the extraction pipeline of [scraper.py]

    A shallow embedding of [is_valid_url], [clean_text] and [scrape_website]
    together with executable models of the library calls they make
    (Python's [str] methods, [re.sub] for the pattern [\s+], [urllib.parse],
    the [ipaddress] validation reached from it, BeautifulSoup's tree queries
    and [requests]' status check).

    Python strings are modelled as [string]; a character stands for the code
    point with the same number, so the development covers the code points
    below 256. *)

From Stdlib Require Import Bool Arith Lia List Ascii String.
From Stdlib Require Import DecimalString HexadecimalString.
Import ListNotations.
Open Scope string_scope.
Open Scope nat_scope.

(* ================================================================== *)
(** ** Python [str] methods *)

Module PyStr.

Definition ord (c : ascii) : nat := nat_of_ascii c.

(** [c.isspace()] on code points below 256: TAB..CR, FS..US, space, NEL and
    NBSP.  The regular expression class [\s] on [str] patterns is the same
    set. *)
Definition isspace (c : ascii) : bool :=
  let n := ord c in
  ((9 <=? n) && (n <=? 13)) || ((28 <=? n) && (n <=? 32))
  || (n =? 133) || (n =? 160).

Definition isascii (c : ascii) : bool := ord c <? 128.

Definition is_upper_ascii (c : ascii) : bool := (65 <=? ord c) && (ord c <=? 90).
Definition is_lower_ascii (c : ascii) : bool := (97 <=? ord c) && (ord c <=? 122).
Definition is_digit_ascii (c : ascii) : bool := (48 <=? ord c) && (ord c <=? 57).

(** [c.isascii() and c.isalpha()] *)
Definition isascii_alpha (c : ascii) : bool := is_upper_ascii c || is_lower_ascii c.

(** [c in s] for a one-character [c] *)
Fixpoint contains (c : ascii) (s : string) : bool :=
  match s with
  | EmptyString => false
  | String d r => Ascii.eqb c d || contains c r
  end.

Fixpoint forallb (p : ascii -> bool) (s : string) : bool :=
  match s with
  | EmptyString => true
  | String d r => p d && forallb p r
  end.

(** [s[:n]] and [s[n:]] for [n >= 0] *)
Fixpoint take (n : nat) (s : string) : string :=
  match n, s with
  | S n', String c r => String c (take n' r)
  | _, _ => EmptyString
  end.

Fixpoint drop (n : nat) (s : string) : string :=
  match n, s with
  | S n', String _ r => drop n' r
  | _, _ => s
  end.

Fixpoint find_aux (c : ascii) (s : string) (i : nat) : option nat :=
  match s with
  | EmptyString => None
  | String d r => if Ascii.eqb c d then Some i else find_aux c r (S i)
  end.

(** [s.find(c)] and [s.find(c, start)]; [None] stands for [-1] *)
Definition find (c : ascii) (s : string) : option nat := find_aux c s 0.
Definition find_from (c : ascii) (s : string) (start : nat) : option nat :=
  find_aux c (drop start s) start.

Fixpoint rfind_aux (c : ascii) (s : string) (i : nat) (last : option nat) : option nat :=
  match s with
  | EmptyString => last
  | String d r => rfind_aux c r (S i) (if Ascii.eqb c d then Some i else last)
  end.

(** [s.rfind(c)] *)
Definition rfind (c : ascii) (s : string) : option nat := rfind_aux c s 0 None.

(** [s.lstrip(chars)], [s.rstrip(chars)], [s.strip(chars)], the set of
    characters given as a predicate *)
Fixpoint lstrip (p : ascii -> bool) (s : string) : string :=
  match s with
  | EmptyString => EmptyString
  | String c r => if p c then lstrip p r else s
  end.

Fixpoint rstrip (p : ascii -> bool) (s : string) : string :=
  match s with
  | EmptyString => EmptyString
  | String c r =>
      match rstrip p r with
      | EmptyString => if p c then EmptyString else String c EmptyString
      | r' => String c r'
      end
  end.

Definition strip (p : ascii -> bool) (s : string) : string := rstrip p (lstrip p s).

(** [s.replace(c, "")] *)
Fixpoint remove (c : ascii) (s : string) : string :=
  match s with
  | EmptyString => EmptyString
  | String d r => if Ascii.eqb c d then remove c r else String d (remove c r)
  end.

(** [s.split(sep)] for a one-character separator: never the empty list *)
Fixpoint split (sep : ascii) (s : string) : list string :=
  match s with
  | EmptyString => [EmptyString]
  | String c r =>
      if Ascii.eqb c sep then EmptyString :: split sep r
      else match split sep r with
           | h :: t => String c h :: t
           | [] => [String c EmptyString]
           end
  end.

(** [sep.join(parts)] *)
Fixpoint join (sep : string) (parts : list string) : string :=
  match parts with
  | [] => EmptyString
  | [p] => p
  | p :: rest => p ++ sep ++ join sep rest
  end.

(** [s.partition(c)]: (before, separator found, after) *)
Fixpoint partition (c : ascii) (s : string) : string * bool * string :=
  match s with
  | EmptyString => (EmptyString, false, EmptyString)
  | String d r =>
      if Ascii.eqb c d then (EmptyString, true, r)
      else let '(b, f, a) := partition c r in (String d b, f, a)
  end.

(** [s.rpartition(c)]: without a separator the whole string is the last part *)
Definition rpartition (c : ascii) (s : string) : string * bool * string :=
  match rfind c s with
  | Some i => (take i s, true, drop (S i) s)
  | None => (EmptyString, false, s)
  end.

(** [s.split(c, 1)] when [c in s]: the parts around the first [c] *)
Definition split_once (c : ascii) (s : string) : string * string :=
  let '(b, _, a) := partition c s in (b, a).

(** [c.lower()] on code points below 256 *)
Definition lower_char (c : ascii) : ascii :=
  let n := ord c in
  if is_upper_ascii c
     || ((192 <=? n) && (n <=? 222) && negb (n =? 215))
  then ascii_of_nat (n + 32) else c.

Fixpoint lower (s : string) : string :=
  match s with
  | EmptyString => EmptyString
  | String c r => String (lower_char c) (lower r)
  end.

(** [s.startswith(c)] *)
Definition startswith (c : ascii) (s : string) : bool :=
  match s with
  | String d _ => Ascii.eqb c d
  | EmptyString => false
  end.

(** [not s] *)
Definition is_empty (s : string) : bool :=
  match s with
  | EmptyString => true
  | String _ _ => false
  end.

(** [x in xs] for a list of strings *)
Definition mem (x : string) (xs : list string) : bool :=
  existsb (String.eqb x) xs.

(** [str(n)] for a natural number *)
Definition str_of_nat (n : nat) : string :=
  DecimalString.NilZero.string_of_uint (Nat.to_uint n).

Definition LF : ascii := ascii_of_nat 10.
Definition TAB : ascii := ascii_of_nat 9.
Definition CR : ascii := ascii_of_nat 13.

End PyStr.

(* ================================================================== *)
(** ** [re.sub(r'\s+', repl, text)] *)

Module re.

(** Every maximal run of whitespace is one match of [\s+] and is replaced by
    [repl]; [in_match] tells that the previous character belonged to the
    run being replaced. *)
Fixpoint sub_spaces (repl : string) (in_match : bool) (text : string) : string :=
  match text with
  | EmptyString => EmptyString
  | String c r =>
      if PyStr.isspace c then
        if in_match then sub_spaces repl true r
        else repl ++ sub_spaces repl true r
      else String c (sub_spaces repl false r)
  end.

Definition sub_s_plus (repl text : string) : string := sub_spaces repl false text.

End re.

(* ================================================================== *)
(** ** Exceptions *)

(** The [ValueError]s that [urllib.parse] raises *)
Inductive value_error : Type :=
| InvalidIPv6URL
| IPvFutureInvalid
| IPv4InBrackets
| NotAnIPAddress (address : string).

(** [RequestException msg] is any [requests.exceptions.RequestException]
    [e] with [str(e) = msg]; [ParserRejectedMarkup msg] is the exception of
    that name with which [BeautifulSoup(...)] gives up on markup its parser
    cannot handle, [str(e) = msg]; [Exception prefix cause] is
    [Exception(f"{prefix}{str(cause)}")]. *)
Inductive exn : Type :=
| ValueError (why : value_error)
| KeyError (key : string)
| RequestException (msg : string)
| ParserRejectedMarkup (msg : string)
| Exception (prefix : string) (cause : exn).

Inductive result (A : Type) : Type :=
| Ok (a : A)
| Raise (e : exn).

Arguments Ok {A} a.
Arguments Raise {A} e.

Definition bind {A B : Type} (m : result A) (k : A -> result B) : result B :=
  match m with
  | Ok a => k a
  | Raise e => Raise e
  end.

Notation "x <- m ;; k" := (bind m (fun x => k))
  (at level 61, m at next level, right associativity).
Notation "' pat <- m ;; k" := (bind m (fun x => match x with pat => k end))
  (at level 61, pat pattern, m at next level, right associativity).

(** A [for] loop whose body may raise: the state is threaded left to right
    and the first exception ends the loop. *)
Fixpoint for_each {A St : Type} (body : St -> A -> result St) (xs : list A) (s : St)
  : result St :=
  match xs with
  | [] => Ok s
  | x :: rest => s' <- body s x ;; for_each body rest s'
  end.

(* ================================================================== *)
(** ** [ipaddress]: which strings are addresses *)

Module ipaddress.
Import PyStr.

Definition is_hex_digit (c : ascii) : bool :=
  is_digit_ascii c
  || ((97 <=? ord c) && (ord c <=? 102))
  || ((65 <=? ord c) && (ord c <=? 70)).

(** [int(s, 10)] for a string of ASCII digits *)
Definition int10 (s : string) : nat :=
  (fix go (acc : nat) (s : string) : nat :=
     match s with
     | EmptyString => acc
     | String c r => go (10 * acc + (ord c - 48)) r
     end) 0 s.

(** [IPv4Address._parse_octet]: the octet, or [None] for ValueError *)
Definition _parse_octet (octet_str : string) : option nat :=
  if is_empty octet_str then None
  else if negb (forallb (fun c => isascii c && is_digit_ascii c) octet_str) then None
  else if 3 <? String.length octet_str then None
  else if negb (String.eqb octet_str "0") && startswith "0" octet_str then None
  else
    let octet_int := int10 octet_str in
    if 255 <? octet_int then None else Some octet_int.

(** [IPv4Address(address)]: the four octets, or [None] for
    AddressValueError *)
Definition IPv4Address (address : string) : option (list nat) :=
  if contains "/" address then None
  else if is_empty address then None
  else
    let octets := split "." address in
    if negb (List.length octets =? 4) then None
    else
      fold_right (fun o acc =>
                    match _parse_octet o, acc with
                    | Some n, Some ns => Some (n :: ns)
                    | _, _ => None
                    end) (Some []) octets.

(** ['%x' % n] *)
Definition hex_of_nat (n : nat) : string :=
  HexadecimalString.NilZero.string_of_uint (Nat.to_hex_uint n).

(** [IPv6Address._parse_hextet] succeeds; [int('', 16)] is a ValueError *)
Definition _parse_hextet (hextet_str : string) : bool :=
  forallb is_hex_digit hextet_str
  && (String.length hextet_str <=? 4)
  && negb (is_empty hextet_str).

(** [IPv6Address._split_scope_id]: the address part, or [None] for
    AddressValueError *)
Definition _split_scope_id (ip_str : string) : option string :=
  let '(addr, sep, scope_id) := partition "%" ip_str in
  if negb sep then Some addr
  else if is_empty scope_id || contains "%" scope_id then None
  else Some addr.

(** The loop that looks for the one ['::']: [None] when there are two *)
Definition find_skip_index (parts : list string) : option (option nat) :=
  fold_left
    (fun acc i =>
       match acc with
       | None => None
       | Some skip_index =>
           if is_empty (nth i parts "") then
             match skip_index with
             | Some _ => None
             | None => Some (Some i)
             end
           else Some skip_index
       end)
    (seq 1 (List.length parts - 2)) (Some None).

(** [IPv6Address._ip_int_from_string] succeeds *)
Definition _ip_int_from_string (ip_str : string) : bool :=
  if is_empty ip_str then false
  else
    let parts := split ":" ip_str in
    if List.length parts <? 3 then false
    else
      let parts' :=
        if contains "." (last parts "") then
          match IPv4Address (last parts "") with
          | Some [a; b; c; d] =>
              Some (removelast parts
                      ++ [hex_of_nat (a * 256 + b); hex_of_nat (c * 256 + d)])%list
          | _ => None
          end
        else Some parts in
      match parts' with
      | None => false
      | Some parts =>
          if 9 <? List.length parts then false
          else
            match find_skip_index parts with
            | None => false
            | Some (Some skip_index) =>
                let parts_hi := skip_index in
                let parts_lo := List.length parts - skip_index - 1 in
                let hd_empty := is_empty (nth 0 parts "") in
                let parts_hi := if hd_empty then parts_hi - 1 else parts_hi in
                if hd_empty && negb (parts_hi =? 0) then false
                else
                  let tl_empty := is_empty (last parts "") in
                  let parts_lo := if tl_empty then parts_lo - 1 else parts_lo in
                  if tl_empty && negb (parts_lo =? 0) then false
                  else if 8 - (parts_hi + parts_lo) <? 1 then false
                  else
                    List.forallb _parse_hextet (firstn parts_hi parts)
                    && List.forallb _parse_hextet
                         (skipn (List.length parts - parts_lo) parts)
            | Some None =>
                if negb (List.length parts =? 8) then false
                else if is_empty (nth 0 parts "") then false
                else if is_empty (last parts "") then false
                else List.forallb _parse_hextet parts
            end
      end.

(** [IPv6Address(address)] succeeds *)
Definition IPv6Address (address : string) : bool :=
  if contains "/" address then false
  else
    match _split_scope_id address with
    | None => false
    | Some addr_str => _ip_int_from_string addr_str
    end.

Inductive ip_version : Type := V4 | V6.

(** [ip_address(address)]: IPv4 is tried first *)
Definition ip_address (address : string) : result ip_version :=
  match IPv4Address address with
  | Some _ => Ok V4
  | None =>
      if IPv6Address address then Ok V6
      else Raise (ValueError (NotAnIPAddress address))
  end.

End ipaddress.

(* ================================================================== *)
(** ** [urllib.parse] *)

Module urllib.
Import PyStr.

Definition uses_relative : list string :=
  [""; "ftp"; "http"; "gopher"; "nntp"; "imap"; "wais"; "file"; "https";
   "shttp"; "mms"; "prospero"; "rtsp"; "rtspu"; "sftp"; "svn"; "svn+ssh";
   "ws"; "wss"].

Definition uses_netloc : list string :=
  [""; "ftp"; "http"; "gopher"; "nntp"; "telnet"; "imap"; "wais"; "file";
   "mms"; "https"; "shttp"; "snews"; "prospero"; "rtsp"; "rtspu"; "rsync";
   "svn"; "svn+ssh"; "sftp"; "nfs"; "git"; "git+ssh"; "ws"; "wss"].

Definition uses_params : list string :=
  [""; "ftp"; "hdl"; "prospero"; "http"; "imap"; "https"; "shttp"; "rtsp";
   "rtspu"; "sip"; "sips"; "mms"; "sftp"; "tel"].

(** [c in scheme_chars] *)
Definition scheme_chars (c : ascii) : bool :=
  isascii_alpha c || is_digit_ascii c
  || Ascii.eqb c "+" || Ascii.eqb c "-" || Ascii.eqb c ".".

(** [c in _WHATWG_C0_CONTROL_OR_SPACE] *)
Definition _WHATWG_C0_CONTROL_OR_SPACE (c : ascii) : bool := ord c <=? 32.

Definition _UNSAFE_URL_BYTES_TO_REMOVE : list ascii := [TAB; CR; LF].

Record SplitResult : Type := mkSplitResult {
  split_scheme : string;
  split_netloc : string;
  split_path : string;
  split_query : string;
  split_fragment : string
}.

Record ParseResult : Type := mkParseResult {
  scheme : string;
  netloc : string;
  path : string;
  params : string;
  query : string;
  fragment : string
}.

Definition _splitparams (url : string) : string * string :=
  let cut (i : option nat) :=
    match i with
    | Some i => (take i url, drop (S i) url)
    | None => (take (String.length url - 1) url, url)   (* i = -1 *)
    end in
  if contains "/" url then
    match find_from ";" url (match rfind "/" url with Some j => j | None => 0 end) with
    | None => (url, "")
    | Some i => cut (Some i)
    end
  else cut (find ";" url).

Definition _splitnetloc (url : string) (start : nat) : string * string :=
  let delim :=
    fold_left (fun delim c =>
                 match find_from c url start with
                 | Some wdelim => Nat.min delim wdelim
                 | None => delim
                 end)
              ["/"; "?"; "#"]%char (String.length url) in
  (take (delim - start) (drop start url), drop delim url).

(** [_checknetloc] raises when NFKC normalisation of a non-ASCII netloc,
    with [@ : # ?] left out, brings in one of [/ ? # @ :].  No code point
    below 256 normalises to text with one of these characters, so on the
    strings of this development the check never raises. *)
Definition _checknetloc (netloc : string) : result unit := Ok tt.

(** [re.match(r"\Av[a-fA-F0-9]+\..+\Z", hostname)] *)
Definition match_ipvfuture (hostname : string) : bool :=
  match hostname with
  | String "v" rest =>
      let rest' := lstrip ipaddress.is_hex_digit rest in
      (String.length rest' <? String.length rest)
      && match rest' with
         | String "." (String c tail) => negb (contains LF (String c tail))
         | _ => false
         end
  | _ => false
  end.

Definition _check_bracketed_host (hostname : string) : result unit :=
  if startswith "v" hostname then
    if negb (match_ipvfuture hostname) then Raise (ValueError IPvFutureInvalid)
    else Ok tt
  else
    ip <- ipaddress.ip_address hostname ;;
    match ip with
    | ipaddress.V4 => Raise (ValueError IPv4InBrackets)
    | ipaddress.V6 => Ok tt
    end.

Definition _check_bracketed_netloc (netloc : string) : result unit :=
  let '(_, _, hostname_and_port) := rpartition "@" netloc in
  let '(before_bracket, have_open_br, bracketed) := partition "[" hostname_and_port in
  if have_open_br then
    if negb (is_empty before_bracket) then Raise (ValueError InvalidIPv6URL)
    else
      let '(hostname, _, port) := partition "]" bracketed in
      if negb (is_empty port) && negb (startswith ":" port)
      then Raise (ValueError InvalidIPv6URL)
      else _check_bracketed_host hostname
  else
    let '(hostname, _, port) := partition ":" hostname_and_port in
    _check_bracketed_host hostname.

Definition urlsplit (url scheme : string) : result SplitResult :=
  let url := lstrip _WHATWG_C0_CONTROL_OR_SPACE url in
  let scheme := strip _WHATWG_C0_CONTROL_OR_SPACE scheme in
  let url := fold_left (fun u b => remove b u) _UNSAFE_URL_BYTES_TO_REMOVE url in
  let scheme := fold_left (fun u b => remove b u) _UNSAFE_URL_BYTES_TO_REMOVE scheme in
  let '(scheme, url) :=
    match find ":" url with
    | Some i =>
        if (0 <? i)
           && match url with String c _ => isascii c && isascii_alpha c | EmptyString => false end
           && forallb scheme_chars (take i url)
        then (lower (take i url), drop (S i) url)
        else (scheme, url)
    | None => (scheme, url)
    end in
  '(netloc, url) <-
    (if String.eqb (take 2 url) "//" then
       let '(netloc, url) := _splitnetloc url 2 in
       if (contains "[" netloc && negb (contains "]" netloc))
          || (contains "]" netloc && negb (contains "[" netloc))
       then Raise (ValueError InvalidIPv6URL)
       else if contains "[" netloc && contains "]" netloc then
         _ <- _check_bracketed_netloc netloc ;; Ok (netloc, url)
       else Ok (netloc, url)
     else Ok ("", url)) ;;
  let '(url, fragment) :=
    if contains "#" url then split_once "#" url else (url, "") in
  let '(url, query) :=
    if contains "?" url then split_once "?" url else (url, "") in
  _ <- _checknetloc netloc ;;
  Ok (mkSplitResult scheme netloc url query fragment).

Definition urlparse (url scheme : string) : result ParseResult :=
  splitresult <- urlsplit url scheme ;;
  let '(mkSplitResult scheme netloc url query fragment) := splitresult in
  let '(url, params) :=
    if mem scheme uses_params && contains ";" url then _splitparams url
    else (url, "") in
  Ok (mkParseResult scheme netloc url params query fragment).

Definition urlunsplit (scheme netloc url query fragment : string) : string :=
  let url :=
    if negb (is_empty netloc)
       || (negb (is_empty scheme) && mem scheme uses_netloc
           && negb (String.eqb (take 2 url) "//"))
    then
      let url :=
        if negb (is_empty url) && negb (String.eqb (take 1 url) "/")
        then "/" ++ url else url in
      "//" ++ netloc ++ url
    else url in
  let url := if negb (is_empty scheme) then scheme ++ ":" ++ url else url in
  let url := if negb (is_empty query) then url ++ "?" ++ query else url in
  let url := if negb (is_empty fragment) then url ++ "#" ++ fragment else url in
  url.

Definition urlunparse (scheme netloc url params query fragment : string) : string :=
  let url := if negb (is_empty params) then url ++ ";" ++ params else url in
  urlunsplit scheme netloc url query fragment.

(** [segments[1:-1] = filter(None, segments[1:-1])] *)
Definition filter_inner (segments : list string) : list string :=
  match segments with
  | first :: (_ :: _) as rest =>
      (first :: filter (fun s => negb (is_empty s)) (removelast rest)
         ++ [last rest ""])%list
  | _ => segments
  end.

(** The loop over [segments] that builds [resolved_path] *)
Definition resolve_segments (segments : list string) : list string :=
  fold_left (fun resolved_path seg =>
               if String.eqb seg ".." then removelast resolved_path
               else if String.eqb seg "." then resolved_path
               else (resolved_path ++ [seg])%list)
            segments [].

Definition urljoin (base url : string) : result string :=
  if is_empty base then Ok url
  else if is_empty url then Ok base
  else
    b <- urlparse base "" ;;
    let '(mkParseResult bscheme bnetloc bpath bparams bquery bfragment) := b in
    u <- urlparse url bscheme ;;
    let '(mkParseResult scheme netloc path params query fragment) := u in
    if negb (String.eqb scheme bscheme) || negb (mem scheme uses_relative)
    then Ok url
    else if mem scheme uses_netloc && negb (is_empty netloc)
    then Ok (urlunparse scheme netloc path params query fragment)
    else
      let netloc := if mem scheme uses_netloc then bnetloc else netloc in
      if is_empty path && is_empty params then
        let path := bpath in
        let params := bparams in
        let query := if is_empty query then bquery else query in
        Ok (urlunparse scheme netloc path params query fragment)
      else
        let base_parts := split "/" bpath in
        let base_parts :=
          if negb (String.eqb (last base_parts "") "")
          then removelast base_parts else base_parts in
        let segments :=
          if String.eqb (take 1 path) "/" then split "/" path
          else filter_inner (base_parts ++ split "/" path)%list in
        let resolved_path := resolve_segments segments in
        let resolved_path :=
          if mem (last segments "") ["."; ".."]
          then (resolved_path ++ [""])%list else resolved_path in
        let joined := join "/" resolved_path in
        Ok (urlunparse scheme netloc
              (if is_empty joined then "/" else joined)
              params query fragment).

End urllib.

(* ================================================================== *)
(** ** BeautifulSoup: the parsed tree and its queries *)

Module bs4.
Import PyStr.

(** A node of the tree that [BeautifulSoup(markup, 'html.parser')] builds.
    [NavigableString] is text that [get_text] collects; [Comment] stands for
    the string classes that [get_text] of an ordinary tag leaves out
    (comments, declarations, script and style text).  [attrs] is the tag's
    attribute dictionary. *)
#[warnings="-register-all"]
Inductive PageElement : Type :=
| Tag (name : string) (attrs : list (string * string)) (contents : list PageElement)
| NavigableString (text : string)
| Comment (text : string).

(** [tag.descendants]: every node below the tag, in document order *)
Fixpoint descendants (e : PageElement) : list PageElement :=
  match e with
  | Tag _ _ contents => flat_map (fun c => c :: descendants c) contents
  | NavigableString _ => []
  | Comment _ => []
  end.

(** [tag.get(key)] *)
Definition get (e : PageElement) (key : string) : option string :=
  match e with
  | Tag _ attrs _ =>
      match List.find (fun kv => String.eqb (fst kv) key) attrs with
      | Some kv => Some (snd kv)
      | None => None
      end
  | _ => None
  end.

(** [tag.get(key, default)] *)
Definition get_default (e : PageElement) (key default : string) : string :=
  match get e key with
  | Some v => v
  | None => default
  end.

(** [tag[key]] *)
Definition getitem (e : PageElement) (key : string) : result string :=
  match get e key with
  | Some v => Ok v
  | None => Raise (KeyError key)
  end.

(** One keyword filter of [find_all]: [(key, None)] is [key=True],
    [(key, Some v)] is [attrs={key: v}]. *)
Definition attr_filter : Type := string * option string.

Definition matches_attr (e : PageElement) (f : attr_filter) : bool :=
  match get e (fst f), snd f with
  | Some _, None => true
  | Some v, Some wanted => String.eqb v wanted
  | None, _ => false
  end.

Definition matches (names : list string) (filters : list attr_filter)
           (e : PageElement) : bool :=
  match e with
  | Tag name _ _ => mem name names && List.forallb (matches_attr e) filters
  | _ => false
  end.

(** [tag.find_all(names, **filters)] *)
Definition find_all (names : list string) (filters : list attr_filter)
           (e : PageElement) : list PageElement :=
  filter (matches names filters) (descendants e).

(** [tag.find(names, **filters)] *)
Definition find (names : list string) (filters : list attr_filter)
           (e : PageElement) : option PageElement :=
  hd_error (find_all names filters e).

(** [tag.get_text()] *)
Definition get_text (e : PageElement) : string :=
  fold_right (fun d acc =>
                match d with
                | NavigableString s => s ++ acc
                | _ => acc
                end) "" (descendants e).

(** [tag.string]: [None] unless the tag has exactly one child *)
Fixpoint string (e : PageElement) : option String.string :=
  match e with
  | Tag _ _ contents =>
      match contents with
      | [child] => string child
      | _ => None
      end
  | NavigableString s => Some s
  | Comment s => Some s
  end.

End bs4.

(* ================================================================== *)
(** ** [requests]: the response and its status check *)

Module requests.
Import PyStr.

Record Response : Type := mkResponse {
  status_code : nat;
  reason : string;
  url : string;
  headers : list (string * string);
  content : string
}.

(** [response.headers.get(key, default)]; the header names compare without
    regard to case *)
Definition headers_get (r : Response) (key default : string) : string :=
  match List.find (fun kv => String.eqb (lower (fst kv)) (lower key)) (headers r) with
  | Some kv => snd kv
  | None => default
  end.

(** [response.raise_for_status()]: an [HTTPError] for 4xx and 5xx *)
Definition raise_for_status (r : Response) : result unit :=
  if (400 <=? status_code r) && (status_code r <? 500) then
    Raise (RequestException
             (str_of_nat (status_code r) ++ " Client Error: " ++ reason r
              ++ " for url: " ++ url r))
  else if (500 <=? status_code r) && (status_code r <? 600) then
    Raise (RequestException
             (str_of_nat (status_code r) ++ " Server Error: " ++ reason r
              ++ " for url: " ++ url r))
  else Ok tt.

End requests.

(* ================================================================== *)
(** ** The scraper *)

(** What the scraper asks of its surroundings: the outcome of
    [requests.get(url, headers=..., timeout=15)], the outcome of
    [BeautifulSoup(content, 'html.parser')] (the tree it builds, or the
    exception it raises when the parser rejects the markup), and
    [datetime.now().isoformat()]. *)
Record World : Type := mkWorld {
  requests_get : string -> result requests.Response;
  BeautifulSoup : string -> result bs4.PageElement;
  datetime_now : string
}.

Definition is_valid_url (url : string) : bool :=
  match urllib.urlparse url "" with
  | Ok result =>
      List.forallb (fun s => negb (PyStr.is_empty s))
                   [urllib.scheme result; urllib.netloc result]
  | Raise _ => false
  end.

(** [text] is [None] or a string; [not text] holds for [None] and [""]. *)
Definition clean_text (text : option string) : string :=
  match text with
  | None => ""
  | Some text =>
      if PyStr.is_empty text then ""
      else
        let text := re.sub_s_plus " " text in
        let text := PyStr.strip PyStr.isspace text in
        text
  end.

Module Link.
Record t : Type := mk { text : string; url : string; is_external : bool }.
End Link.

Module Image.
Record t : Type := mk { src : string; alt : string; title : string }.
End Image.

Module Table.
Record t : Type := mk { headers : list string; rows : list (list string) }.
End Table.

Module Metadata.
Record t : Type := mk {
  url : string;
  title : string;
  description : string;
  keywords : string;
  scrape_timestamp : string;
  status_code : nat;
  content_type : string;
  content_length : nat
}.
End Metadata.

Module Statistics.
Record t : Type := mk {
  total_headings : nat;
  total_paragraphs : nat;
  total_links : nat;
  total_images : nat;
  total_tables : nat;
  external_links : nat
}.
End Statistics.

Record ScrapedDocument : Type := mkScrapedDocument {
  metadata : Metadata.t;
  headings : list (string * list string);
  paragraphs : list string;
  links : list Link.t;
  images : list Image.t;
  tables : list Table.t;
  statistics : Statistics.t
}.

(** [[clean_text(h.get_text()) for h in elements]] *)
Definition texts_of (elements : list bs4.PageElement) : list string :=
  map (fun h => clean_text (Some (bs4.get_text h))) elements.

(** Body of [for link in soup.find_all('a', href=True)[:100]] *)
Definition links_body (url : string) (links : list Link.t) (link : bs4.PageElement)
  : result (list Link.t) :=
  href <- bs4.getitem link "href" ;;
  let text := clean_text (Some (bs4.get_text link)) in
  full_url <- urllib.urljoin url href ;;
  if is_valid_url full_url then
    p <- urllib.urlparse full_url "" ;;
    q <- urllib.urlparse url "" ;;
    Ok (links ++ [Link.mk (if PyStr.is_empty text then "[No Text]" else text)
                          full_url
                          (negb (String.eqb (urllib.netloc p) (urllib.netloc q)))])%list
  else Ok links.

(** Body of [for img in soup.find_all('img', src=True)[:50]] *)
Definition images_body (url : string) (images : list Image.t) (img : bs4.PageElement)
  : result (list Image.t) :=
  src <- bs4.getitem img "src" ;;
  let alt := bs4.get_default img "alt" "No alt text" in
  full_src <- urllib.urljoin url src ;;
  if is_valid_url full_src then
    Ok (images ++ [Image.mk full_src (clean_text (Some alt))
                            (bs4.get_default img "title" "")])%list
  else Ok images.

(** Body of [for row in table.find_all('tr')] *)
Definition rows_body (table_data : list (list string)) (row : bs4.PageElement)
  : list (list string) :=
  let row_data :=
    fold_left (fun row_data cell =>
                 (row_data ++ [clean_text (Some (bs4.get_text cell))])%list)
              (bs4.find_all ["td"; "th"] [] row) [] in
  match row_data with
  | [] => table_data
  | _ :: _ => (table_data ++ [row_data])%list
  end.

(** Body of [for table in soup.find_all('table')[:10]] *)
Definition tables_body (tables : list Table.t) (table : bs4.PageElement)
  : list Table.t :=
  let headers :=
    fold_left (fun headers th =>
                 (headers ++ [clean_text (Some (bs4.get_text th))])%list)
              (bs4.find_all ["th"] [] table) [] in
  let table_data := fold_left rows_body (bs4.find_all ["tr"] [] table) [] in
  match table_data with
  | [] => tables
  | _ :: _ => (tables ++ [Table.mk headers table_data])%list
  end.

Definition extract_links (url : string) (soup : bs4.PageElement)
  : result (list Link.t) :=
  for_each (links_body url)
           (firstn 100 (bs4.find_all ["a"] [("href", None)] soup)) [].

Definition extract_images (url : string) (soup : bs4.PageElement)
  : result (list Image.t) :=
  for_each (images_body url)
           (firstn 50 (bs4.find_all ["img"] [("src", None)] soup)) [].

Definition extract_tables (soup : bs4.PageElement) : list Table.t :=
  fold_left tables_body (firstn 10 (bs4.find_all ["table"] [] soup)) [].

(** [soup.find('meta', attrs={'name': name})] and its [content], [""] when
    the tag or the attribute is missing *)
Definition meta_content (soup : bs4.PageElement) (name : string) : string :=
  match bs4.find ["meta"] [("name", Some name)] soup with
  | Some meta_tag => bs4.get_default meta_tag "content" ""
  | None => ""
  end.

(** The [try] block of [scrape_website] *)
Definition scrape_website_try (w : World) (url : string) : result ScrapedDocument :=
  response <- requests_get w url ;;
  _ <- requests.raise_for_status response ;;
  soup <- BeautifulSoup w (requests.content response) ;;
  let page_title :=
    match bs4.find ["title"] [] soup with
    | Some title => bs4.string title
    | None => Some "No Title"
    end in
  let headings :=
    [("h1", texts_of (bs4.find_all ["h1"] [] soup));
     ("h2", texts_of (bs4.find_all ["h2"] [] soup));
     ("h3", texts_of (bs4.find_all ["h3"] [] soup));
     ("h4", texts_of (bs4.find_all ["h4"] [] soup));
     ("h5", texts_of (bs4.find_all ["h5"] [] soup));
     ("h6", texts_of (bs4.find_all ["h6"] [] soup))] in
  let paragraphs := texts_of (firstn 50 (bs4.find_all ["p"] [] soup)) in
  links <- extract_links url soup ;;
  images <- extract_images url soup ;;
  let tables := extract_tables soup in
  let meta_desc := meta_content soup "description" in
  let meta_keywords := meta_content soup "keywords" in
  Ok {|
    metadata := {|
      Metadata.url := url;
      Metadata.title := clean_text page_title;
      Metadata.description := clean_text (Some meta_desc);
      Metadata.keywords := clean_text (Some meta_keywords);
      Metadata.scrape_timestamp := datetime_now w;
      Metadata.status_code := requests.status_code response;
      Metadata.content_type := requests.headers_get response "content-type" "";
      Metadata.content_length := String.length (requests.content response)
    |};
    headings := headings;
    paragraphs := paragraphs;
    links := links;
    images := images;
    tables := tables;
    statistics := {|
      Statistics.total_headings :=
        fold_left Nat.add (map (fun kv => List.length (snd kv)) headings) 0;
      Statistics.total_paragraphs := List.length paragraphs;
      Statistics.total_links := List.length links;
      Statistics.total_images := List.length images;
      Statistics.total_tables := List.length tables;
      Statistics.external_links :=
        List.length (filter Link.is_external links)
    |}
  |}.

(** The two [except] clauses: a [RequestException] is re-raised as
    [Exception(f"Failed to fetch URL: {e}")], anything else as
    [Exception(f"Scraping failed: {e}")]. *)
Definition scrape_website (w : World) (url : string) : result ScrapedDocument :=
  match scrape_website_try w url with
  | Ok scraped_data => Ok scraped_data
  | Raise (RequestException msg) =>
      Raise (Exception "Failed to fetch URL: " (RequestException msg))
  | Raise e => Raise (Exception "Scraping failed: " e)
  end.

(* ================================================================== *)
(** ** Notions the properties are stated with *)

(** [collapsed after_space s]: every whitespace character of [s] is a
    space, and no space follows a space ([after_space] tells whether a space
    comes just before [s]). *)
Fixpoint collapsed (after_space : bool) (s : string) : bool :=
  match s with
  | EmptyString => true
  | String c r =>
      if PyStr.isspace c
      then Ascii.eqb c " " && negb after_space && collapsed true r
      else collapsed false r
  end.

Fixpoint normalized_from (after_space : bool) (s : string) : bool :=
  match s with
  | EmptyString => negb after_space
  | String c r =>
      if PyStr.isspace c
      then Ascii.eqb c " " && negb after_space && normalized_from true r
      else normalized_from false r
  end.

(** Normalized text: no run of whitespace other than one space character,
    and no whitespace at either end. *)
Definition normalized (s : string) : bool :=
  PyStr.is_empty s || normalized_from true s.

(** [s] is empty or starts with a character that is not whitespace *)
Definition starts_clean (s : string) : bool :=
  match s with
  | EmptyString => true
  | String c _ => negb (PyStr.isspace c)
  end.

(** The reference [ref] held by attribute [attr] of [e] joins with the page
    URL into [full]. *)
Definition resolves_to (url attr : string) (e : bs4.PageElement) (full : string)
  : Prop :=
  exists ref, bs4.get e attr = Some ref /\ urllib.urljoin url ref = Ok full.

(** A link entry as the spec describes it: its URL passed validation, and
    [is_external] compares the two network locations. *)
Definition link_ok (url : string) (l : Link.t) : Prop :=
  is_valid_url (Link.url l) = true
  /\ exists p q,
      urllib.urlparse (Link.url l) "" = Ok p
      /\ urllib.urlparse url "" = Ok q
      /\ Link.is_external l
         = negb (String.eqb (urllib.netloc p) (urllib.netloc q)).

(** Table extraction in the spec's words: the normalized texts of the
    [td]/[th] cells of one [tr] ... *)
Definition row_cells (row : bs4.PageElement) : list string :=
  texts_of (bs4.find_all ["td"; "th"] [] row).

Definition has_cells (cells : list string) : bool :=
  match cells with
  | [] => false
  | _ :: _ => true
  end.

(** ... and the entry of one table: headers from every [th] of the table,
    one row per [tr] that has cells, no entry when no row is left. *)
Definition table_entry (table : bs4.PageElement) : list Table.t :=
  let rows := filter has_cells (map row_cells (bs4.find_all ["tr"] [] table)) in
  match rows with
  | [] => []
  | _ :: _ => [Table.mk (texts_of (bs4.find_all ["th"] [] table)) rows]
  end.

(** *** Concrete pages *)

Definition text_tag (name text : string) : bs4.PageElement :=
  bs4.Tag name [] [bs4.NavigableString text].

Definition anchor (href text : string) : bs4.PageElement :=
  bs4.Tag "a" [("href", href)] [bs4.NavigableString text].

(** The tree of [<html><body>...</body></html>] *)
Definition page (body : list bs4.PageElement) : bs4.PageElement :=
  bs4.Tag "[document]" [] [bs4.Tag "html" [] [bs4.Tag "body" [] body]].

(** A world in which every request is answered with [status] and the
    markup parses into [soup] *)
Definition world_of (status : nat) (reason : string) (soup : bs4.PageElement)
  : World :=
  {| requests_get := fun url =>
       Ok (requests.mkResponse status reason url
             [("Content-Type", "text/html")] "<html></html>");
     BeautifulSoup := fun _ => Ok soup;
     datetime_now := "2024-01-01T00:00:00" |}.

(** A world in which the request fails before any response arrives *)
Definition world_down (msg : string) : World :=
  {| requests_get := fun _ => Raise (RequestException msg);
     BeautifulSoup := fun _ => Ok (page []);
     datetime_now := "2024-01-01T00:00:00" |}.

(** A world in which every request is answered with status 200 and the
    parser rejects the markup *)
Definition world_rejecting (msg : string) : World :=
  {| requests_get := fun url =>
       Ok (requests.mkResponse 200 "OK" url
             [("Content-Type", "text/html")] "<![n");
     BeautifulSoup := fun _ => Raise (ParserRejectedMarkup msg);
     datetime_now := "2024-01-01T00:00:00" |}.

(** One [tr] of two [th] cells and one [tr] of two [td] cells *)
Definition header_and_data_table : bs4.PageElement :=
  bs4.Tag "table" []
    [bs4.Tag "tr" [] [text_tag "th" "h1"; text_tag "th" "h2"];
     bs4.Tag "tr" [] [text_tag "td" "c1"; text_tag "td" "c2"]].

(** A table none of whose rows has a cell *)
Definition cell_less_table : bs4.PageElement :=
  bs4.Tag "table" []
    [bs4.Tag "tr" [] []; bs4.Tag "tr" [] [bs4.NavigableString "stray text"]].

(** 200 paragraphs and 150 anchors with resolvable references *)
Definition crowded_page : bs4.PageElement :=
  page (repeat (text_tag "p" "Hello world") 200
        ++ repeat (anchor "/x" "link") 150)%list.

(** 10 anchors whose reference does not resolve to a valid URL, then 110
    that do *)
Definition mailto_first_page : bs4.PageElement :=
  page (repeat (anchor "mailto:someone" "mail") 10
        ++ repeat (anchor "/x" "link") 110)%list.

(** One link to another host and one to the page's own host *)
Definition two_links_page : bs4.PageElement :=
  page [anchor "https://other.org/x" "other"; anchor "/y" "own"].

(** The page of the spec's end-to-end example *)
Definition minimal_page : bs4.PageElement :=
  bs4.Tag "[document]" []
    [bs4.Tag "html" []
       [bs4.Tag "head" [] [text_tag "title" "T"];
        bs4.Tag "body" []
          [text_tag "h1" "Hi"; text_tag "p" "Hello world"; anchor "/x" "link"]]].

(** The anchors and images the loops may look at *)
Definition anchors_of (soup : bs4.PageElement) : list bs4.PageElement :=
  bs4.find_all ["a"] [("href", None)] soup.

Definition imgs_of (soup : bs4.PageElement) : list bs4.PageElement :=
  bs4.find_all ["img"] [("src", None)] soup.

(** The reference of [e] joins with the page URL into a valid URL. *)
Definition resolves_valid (url attr : string) (e : bs4.PageElement) : bool :=
  match bs4.get e attr with
  | Some ref =>
      match urllib.urljoin url ref with
      | Ok full => is_valid_url full
      | Raise _ => false
      end
  | None => false
  end.

Definition example_url : string := "https://example.com".

(** A valid URL in the spec's words: it parses, with a scheme and a network
    location *)
Definition has_scheme_and_netloc (u : string) : Prop :=
  exists p, urllib.urlparse u "" = Ok p
            /\ urllib.scheme p <> "" /\ urllib.netloc p <> "".

(** Two anchors and two images, one of each with a reference that does not
    resolve to a valid URL *)
Definition mixed_page : bs4.PageElement :=
  page [anchor "/x" "link"; anchor "mailto:someone" "mail";
        bs4.Tag "img" [("src", "pic.png"); ("alt", " a  picture ")] [];
        bs4.Tag "img" [("src", "data:image/png;base64,AAAA")] []].

(** The text [clean_text] returns for a non-empty string *)
Definition cleaned (s : string) : string :=
  PyStr.strip PyStr.isspace (re.sub_s_plus " " s).

(** The reference held by attribute [attr] of [e], if any, can be joined
    with the page URL (joining raises for a malformed bracketed host). *)
Definition joinable (url attr : string) (e : bs4.PageElement) : Prop :=
  forall ref, bs4.get e attr = Some ref ->
              exists full, urllib.urljoin url ref = Ok full.

(* ================================================================== *)
(** ** Further notions: words, and what an exception prints as *)

(** [s.split()]: the maximal runs of characters that are not whitespace *)
Fixpoint words (s : string) : list string :=
  match s with
  | EmptyString => []
  | String c r =>
      if PyStr.isspace c then words r
      else
        match r with
        | EmptyString => [String c EmptyString]
        | String d _ =>
            if PyStr.isspace d then String c EmptyString :: words r
            else
              match words r with
              | w :: ws => String c w :: ws
              | [] => [String c EmptyString]
              end
        end
  end.

(** The characters of [s] that are not whitespace, in order *)
Fixpoint non_whitespace (s : string) : string :=
  match s with
  | EmptyString => EmptyString
  | String c r =>
      if PyStr.isspace c then non_whitespace r else String c (non_whitespace r)
  end.

Module PyRepr.
Import PyStr.

Definition QUOTE : ascii := "'".
Definition DQUOTE : ascii := ascii_of_nat 34.
Definition BACKSLASH : ascii := ascii_of_nat 92.

Definition hex_digit (n : nat) : ascii :=
  nth n ["0"; "1"; "2"; "3"; "4"; "5"; "6"; "7"; "8"; "9";
         "a"; "b"; "c"; "d"; "e"; "f"]%char "0"%char.

(** Two lower-case hexadecimal digits, as in the escape [\xNN] *)
Definition hex2 (n : nat) : string :=
  String (hex_digit (n / 16)) (String (hex_digit (n mod 16)) EmptyString).

(** [c.isprintable()] on code points below 256 *)
Definition isprintable (c : ascii) : bool :=
  let n := ord c in
  ((32 <=? n) && (n <? 127)) || ((161 <=? n) && negb (n =? 173)).

Definition repr_char (quote c : ascii) : string :=
  if Ascii.eqb c quote || Ascii.eqb c BACKSLASH
  then String BACKSLASH (String c EmptyString)
  else if Ascii.eqb c TAB then String BACKSLASH "t"
  else if Ascii.eqb c LF then String BACKSLASH "n"
  else if Ascii.eqb c CR then String BACKSLASH "r"
  else if isprintable c then String c EmptyString
  else String BACKSLASH (String "x" (hex2 (ord c))).

Fixpoint repr_body (quote : ascii) (s : string) : string :=
  match s with
  | EmptyString => EmptyString
  | String c r => repr_char quote c ++ repr_body quote r
  end.

(** [repr(s)] of a string: single quotes, unless the string has a single
    quote and no double quote *)
Definition repr (s : string) : string :=
  let quote :=
    if contains QUOTE s && negb (contains DQUOTE s) then DQUOTE else QUOTE in
  String quote (repr_body quote s ++ String quote EmptyString).

(** [str(e)] *)
Fixpoint str (e : exn) : string :=
  match e with
  | ValueError InvalidIPv6URL => "Invalid IPv6 URL"
  | ValueError IPvFutureInvalid => "IPvFuture address is invalid"
  | ValueError IPv4InBrackets => "An IPv4 address cannot be in brackets"
  | ValueError (NotAnIPAddress address) =>
      repr address ++ " does not appear to be an IPv4 or IPv6 address"
  | KeyError key => repr key
  | RequestException msg => msg
  | ParserRejectedMarkup msg => msg
  | Exception prefix cause => prefix ++ str cause
  end.

End PyRepr.

(** The entry [l] of [links] comes from the anchor [a]: its URL is the
    anchor's reference joined with the page URL, and its text is the
    anchor's cleaned text, or the placeholder when that is empty. *)
Definition link_from (url : string) (a : bs4.PageElement) (l : Link.t) : Prop :=
  resolves_to url "href" a (Link.url l)
  /\ Link.text l
     = if PyStr.is_empty (clean_text (Some (bs4.get_text a)))
       then "[No Text]"
       else clean_text (Some (bs4.get_text a)).

(** The entry [e] of [images] comes from the element [i]: the source is the
    joined reference; the alternative text is the cleaned [alt] attribute,
    the placeholder standing in only for a missing attribute; the title is
    the [title] attribute as it is. *)
Definition image_from (url : string) (i : bs4.PageElement) (e : Image.t) : Prop :=
  resolves_to url "src" i (Image.src e)
  /\ Image.alt e
     = match bs4.get i "alt" with
       | Some alt => clean_text (Some alt)
       | None => "No alt text"
       end
  /\ Image.title e
     = match bs4.get i "title" with
       | Some title => title
       | None => ""
       end.

Definition heading_names : list string := ["h1"; "h2"; "h3"; "h4"; "h5"; "h6"].

Definition is_value_error (e : exn) : Prop :=
  match e with
  | ValueError _ => True
  | _ => False
  end.

(** The response of [world_of 200 "OK" soup] to a request for [url] *)
Definition ok_response (url : string) : requests.Response :=
  requests.mkResponse 200 "OK" url [("Content-Type", "text/html")] "<html></html>".

(** Headings of two levels, one of them nested in a table cell, and more
    of them than any limit of the scraper *)
Definition headings_page : bs4.PageElement :=
  page (repeat (text_tag "h2" " Section  title ") 120
        ++ [bs4.Tag "table" []
              [bs4.Tag "tr" [] [bs4.Tag "td" [] [text_tag "h3" "In a cell"]]]])%list.

(* ================================================================== *)
(** ** The HTTP routes *)

From Stdlib Require Import ZArith.

(** A value that [json.load] returns and [json.dump]/[jsonify] accept.  Of
    a float only its truth value is kept; the items of [JDict] are the
    items of a Python dict, so their keys are distinct. *)
#[warnings="-register-all"]
Inductive json : Type :=
| JNull
| JBool (b : bool)
| JInt (n : Z)
| JFloat (is_zero : bool)
| JStr (s : string)
| JList (items : list json)
| JDict (items : list (string * json)).

(** [bool(v)] *)
Definition truthy (v : json) : bool :=
  match v with
  | JNull => false
  | JBool b => b
  | JInt n => negb (Z.eqb n 0)
  | JFloat is_zero => negb is_zero
  | JStr s => negb (PyStr.is_empty s)
  | JList items => match items with [] => false | _ :: _ => true end
  | JDict items => match items with [] => false | _ :: _ => true end
  end.

(** [type(v).__name__] *)
Definition type_name (v : json) : string :=
  match v with
  | JNull => "NoneType"
  | JBool _ => "bool"
  | JInt _ => "int"
  | JFloat _ => "float"
  | JStr _ => "str"
  | JList _ => "list"
  | JDict _ => "dict"
  end.

(** [d.get(key)] on the items of a dict *)
Definition items_get (items : list (string * json)) (key : string) : json :=
  match List.find (fun kv => String.eqb (fst kv) key) items with
  | Some kv => snd kv
  | None => JNull
  end.

(** [data.get(key)]: on anything but a dict an [AttributeError], given here
    by its text *)
Definition data_get (data : json) (key : string) : string + json :=
  match data with
  | JDict items => inr (items_get items key)
  | v => inl ("'" ++ type_name v ++ "' object has no attribute 'get'")
  end.

(** [is_valid_url(v)] for whatever the request holds under ['url']: on a
    value that is not a string [urlparse] raises, and the bare [except]
    answers [False].  The result is the string when it is a valid URL. *)
Definition valid_url_string (v : json) : option string :=
  match v with
  | JStr s => if is_valid_url s then Some s else None
  | _ => None
  end.

(** [scraped_data] as the dict it is in the source *)
Definition json_of_strings (xs : list string) : json := JList (map JStr xs).

Definition json_of_link (l : Link.t) : json :=
  JDict [("text", JStr (Link.text l));
         ("url", JStr (Link.url l));
         ("is_external", JBool (Link.is_external l))].

Definition json_of_image (i : Image.t) : json :=
  JDict [("src", JStr (Image.src i));
         ("alt", JStr (Image.alt i));
         ("title", JStr (Image.title i))].

Definition json_of_table (t : Table.t) : json :=
  JDict [("headers", json_of_strings (Table.headers t));
         ("rows", JList (map json_of_strings (Table.rows t)))].

Definition json_of_document (d : ScrapedDocument) : json :=
  JDict
    [("metadata",
      JDict [("url", JStr (Metadata.url (metadata d)));
             ("title", JStr (Metadata.title (metadata d)));
             ("description", JStr (Metadata.description (metadata d)));
             ("keywords", JStr (Metadata.keywords (metadata d)));
             ("scrape_timestamp", JStr (Metadata.scrape_timestamp (metadata d)));
             ("status_code", JInt (Z.of_nat (Metadata.status_code (metadata d))));
             ("content_type", JStr (Metadata.content_type (metadata d)));
             ("content_length", JInt (Z.of_nat (Metadata.content_length (metadata d))))]);
     ("headings",
      JDict (map (fun kv => (fst kv, json_of_strings (snd kv))) (headings d)));
     ("paragraphs", json_of_strings (paragraphs d));
     ("links", JList (map json_of_link (links d)));
     ("images", JList (map json_of_image (images d)));
     ("tables", JList (map json_of_table (tables d)));
     ("statistics",
      JDict [("total_headings", JInt (Z.of_nat (Statistics.total_headings (statistics d))));
             ("total_paragraphs", JInt (Z.of_nat (Statistics.total_paragraphs (statistics d))));
             ("total_links", JInt (Z.of_nat (Statistics.total_links (statistics d))));
             ("total_images", JInt (Z.of_nat (Statistics.total_images (statistics d))));
             ("total_tables", JInt (Z.of_nat (Statistics.total_tables (statistics d))));
             ("external_links", JInt (Z.of_nat (Statistics.external_links (statistics d))))])].

(** The files the routes read and write, by name; a file holds the value
    that [json.dump] wrote into it. *)
Definition Files : Type := string -> option json.

Definition write (fs : Files) (name : string) (v : json) : Files :=
  fun name' => if String.eqb name' name then Some v else fs name'.

(** What a request to [/api/scrape] meets: the world of the scraper, the
    outcome of [request.get_json()] (the text of the exception it raises, or
    the parsed body), [datetime.now().strftime('%Y%m%d_%H%M%S')], and for
    each file name the text of the [OSError] that [open(name, 'w')] raises,
    if it does. *)
Record Server : Type := mkServer {
  world : World;
  get_json : string + json;
  strftime_now : string;
  open_error : string -> option string
}.

(** A response of a route: the body handed to [jsonify] and the status *)
Definition HttpResponse : Type := (json * nat)%type.

(** The [except Exception] clause of [api_scrape] *)
Definition api_error (msg : string) : HttpResponse :=
  (JDict [("success", JBool false); ("error", JStr msg)], 500).

Definition api_scrape (srv : Server) (fs : Files) : HttpResponse * Files :=
  match get_json srv with
  | inl msg => (api_error msg, fs)
  | inr data =>
      match data_get data "url" with
      | inl msg => (api_error msg, fs)
      | inr url =>
          if negb (truthy url) then
            ((JDict [("error", JStr "No URL provided")], 400), fs)
          else
            match valid_url_string url with
            | None => ((JDict [("error", JStr "Invalid URL format")], 400), fs)
            | Some url =>
                match scrape_website (world srv) url with
                | Raise e => (api_error (PyRepr.str e), fs)
                | Ok scraped_data =>
                    let filename :=
                      "scraped_data/scrape_" ++ strftime_now srv ++ ".json" in
                    match open_error srv filename with
                    | Some msg => (api_error msg, fs)
                    | None =>
                        let fs := write fs filename (json_of_document scraped_data) in
                        match open_error srv "data.json" with
                        | Some msg => (api_error msg, fs)
                        | None =>
                            let fs :=
                              write fs "data.json" (json_of_document scraped_data) in
                            ((JDict [("success", JBool true);
                                     ("message", JStr "Website scraped successfully");
                                     ("data", json_of_document scraped_data);
                                     ("filename", JStr filename)], 200), fs)
                        end
                    end
                end
            end
      end
  end.

(** The name under which [api_scrape] saves a document *)
Definition scrape_filename (srv : Server) : string :=
  "scraped_data/scrape_" ++ strftime_now srv ++ ".json".

(** [/api/latest]; the [except] clause is for a file that cannot be read
    as JSON, which a file of [Files] always can. *)
Definition get_latest_data (fs : Files) : HttpResponse :=
  match fs "data.json" with
  | Some data => (data, 200)
  | None => (JDict [("error", JStr "No data available")], 404)
  end.

(** The start of the program: [data.json] is created unless it exists. *)
Definition startup (fs : Files) : Files :=
  match fs "data.json" with
  | Some _ => fs
  | None =>
      write fs "data.json"
            (JDict [("metadata", JDict [("message", JStr "No data scraped yet")])])
  end.

(** A server whose request body is [{"url": url}] and whose files can all
    be written *)
Definition server_of (w : World) (url : json) : Server :=
  {| world := w;
     get_json := inr (JDict [("url", url)]);
     strftime_now := "20240101_000000";
     open_error := fun _ => None |}.

Definition no_files : Files := fun _ => None.

(** The files after the program has started and answered the requests
    [requests] to [/api/scrape], one after the other *)
Definition serve (requests : list Server) (fs : Files) : Files :=
  fold_left (fun fs srv => snd (api_scrape srv fs)) requests (startup fs).

(** A server like [server_of w url] whose clock reads [now] *)
Definition server_at (w : World) (url now : string) : Server :=
  {| world := w;
     get_json := inr (JDict [("url", JStr url)]);
     strftime_now := now;
     open_error := fun _ => None |}.

(** A page whose [title] element holds two nodes *)
Definition split_title_page : bs4.PageElement :=
  bs4.Tag "[document]" []
    [bs4.Tag "html" []
       [bs4.Tag "head" []
          [bs4.Tag "title" [] [bs4.NavigableString "A"; bs4.Comment "note"]]]].

(** A world in which every request is answered with status 200 and the
    headers [headers], and the markup parses into [soup] *)
Definition world_with_headers (headers : list (string * string))
           (soup : bs4.PageElement) : World :=
  {| requests_get := fun url =>
       Ok (requests.mkResponse 200 "OK" url headers "<html></html>");
     BeautifulSoup := fun _ => Ok soup;
     datetime_now := "2024-01-01T00:00:00" |}.

(** An anchor whose reference cannot be joined, between two that can *)
Definition broken_href_page : bs4.PageElement :=
  page [anchor "/x" "first"; anchor "http://[broken" "second"; anchor "/z" "third"].

(* ================================================================== *)
(** ** Properties *)

(** *** Text normalization *)

Section CleanText.
Import PyStr.

Lemma collapsed_sub_spaces (s : string) :
  forall b, collapsed b (re.sub_spaces " " b s) = true.
Proof.
  induction s as [|c r IH]; intros b; simpl; [reflexivity|].
  destruct (isspace c) eqn:Hc.
  - destruct b; simpl.
    + apply IH.
    + rewrite IH. reflexivity.
  - simpl. rewrite Hc. apply IH.
Qed.

Lemma sub_spaces_collapsed (s : string) :
  forall b, collapsed b s = true -> re.sub_spaces " " b s = s.
Proof.
  induction s as [|c r IH]; intros b H; simpl in *; [reflexivity|].
  destruct (isspace c) eqn:Hc.
  - apply andb_prop in H as [H Hr]. apply andb_prop in H as [Hsp Hb].
    apply Ascii.eqb_eq in Hsp. subst c.
    destruct b; [discriminate|]. simpl. now rewrite (IH true Hr).
  - now rewrite (IH false H).
Qed.

Lemma collapsed_starts_clean (s : string) :
  starts_clean s = true -> forall b b', collapsed b s = collapsed b' s.
Proof.
  destruct s as [|c r]; simpl; intros H b b'; [reflexivity|].
  apply negb_true_iff in H. now rewrite H.
Qed.

Lemma collapsed_true_starts_clean (s : string) :
  collapsed true s = true -> starts_clean s = true.
Proof.
  destruct s as [|c r]; simpl; [reflexivity|].
  destruct (isspace c); [|reflexivity].
  rewrite andb_false_r. discriminate.
Qed.

Lemma lstrip_starts_clean (s : string) : starts_clean (lstrip isspace s) = true.
Proof.
  induction s as [|c r IH]; simpl; [reflexivity|].
  destruct (isspace c) eqn:Hc; [exact IH|]. simpl. now rewrite Hc.
Qed.

Lemma lstrip_fixed (s : string) : starts_clean s = true -> lstrip isspace s = s.
Proof.
  destruct s as [|c r]; simpl; [reflexivity|].
  intros H. apply negb_true_iff in H. now rewrite H.
Qed.

Lemma collapsed_lstrip (s : string) :
  forall b b', collapsed b s = true -> collapsed b' (lstrip isspace s) = true.
Proof.
  destruct s as [|c r]; intros b b' H; simpl in *; [reflexivity|].
  destruct (isspace c) eqn:Hc.
  - apply andb_prop in H as [_ Hr].
    pose proof (collapsed_true_starts_clean r Hr) as Hs.
    rewrite (lstrip_fixed r Hs).
    now rewrite (collapsed_starts_clean r Hs b' true).
  - simpl. now rewrite Hc.
Qed.

Lemma collapsed_rstrip (s : string) :
  forall b, collapsed b s = true -> collapsed b (rstrip isspace s) = true.
Proof.
  induction s as [|c r IH]; intros b H; simpl in *; [reflexivity|].
  destruct (isspace c) eqn:Hc.
  - apply andb_prop in H as [H Hr]. specialize (IH true Hr).
    destruct (rstrip isspace r) as [|c' r'] eqn:Hrs; [reflexivity|].
    cbn [collapsed]. rewrite Hc, H. exact IH.
  - specialize (IH false H).
    destruct (rstrip isspace r) as [|c' r'] eqn:Hrs; cbn [collapsed]; rewrite Hc.
    + reflexivity.
    + exact IH.
Qed.

Lemma rstrip_starts_clean (s : string) :
  starts_clean s = true -> starts_clean (rstrip isspace s) = true.
Proof.
  destruct s as [|c r]; simpl; [reflexivity|].
  intros H. apply negb_true_iff in H.
  destruct (rstrip isspace r); rewrite ?H; simpl; rewrite ?H; reflexivity.
Qed.

Lemma rstrip_cons (c : ascii) (r : string) :
  rstrip isspace (String c r) =
  match rstrip isspace r with
  | EmptyString => if isspace c then EmptyString else String c EmptyString
  | String c' r' => String c (String c' r')
  end.
Proof. reflexivity. Qed.

Lemma rstrip_idempotent (s : string) :
  rstrip isspace (rstrip isspace s) = rstrip isspace s.
Proof.
  induction s as [|c r IH]; simpl; [reflexivity|].
  destruct (rstrip isspace r) as [|c' r'] eqn:Hrs.
  - destruct (isspace c) eqn:Hc; simpl; [reflexivity|]. now rewrite Hc.
  - rewrite rstrip_cons, IH. reflexivity.
Qed.

Lemma strip_fixed (s : string) :
  strip isspace (strip isspace s) = strip isspace s.
Proof.
  unfold strip.
  rewrite (lstrip_fixed (rstrip isspace (lstrip isspace s))).
  - apply rstrip_idempotent.
  - apply rstrip_starts_clean, lstrip_starts_clean.
Qed.

Lemma normalized_from_fixed (s : string) :
  forall b, collapsed b s = true -> rstrip isspace s = s -> s <> "" ->
            normalized_from b s = true.
Proof.
  induction s as [|c r IH]; intros b Hcol Hfix Hne; [congruence|].
  simpl in *. destruct (isspace c) eqn:Hc.
  - apply andb_prop in Hcol as [H Hr]. rewrite H. simpl.
    destruct (rstrip isspace r) as [|c' r'] eqn:Hrs; [discriminate|].
    injection Hfix as Hfix. apply IH; congruence.
  - destruct (rstrip isspace r) as [|c' r'] eqn:Hrs.
    + injection Hfix as Hfix. subst r. reflexivity.
    + injection Hfix as Hfix. apply IH; congruence.
Qed.

Lemma cleaned_collapsed (s : string) : forall b, collapsed b (cleaned s) = true.
Proof.
  intros b. unfold cleaned, strip, re.sub_s_plus.
  pose proof (collapsed_sub_spaces s false) as H.
  apply (collapsed_lstrip _ false true) in H.
  apply collapsed_rstrip in H.
  rewrite (collapsed_starts_clean _ (rstrip_starts_clean _ (lstrip_starts_clean _)) b true).
  exact H.
Qed.

Lemma clean_text_some (s : string) :
  clean_text (Some s) = if is_empty s then "" else cleaned s.
Proof. reflexivity. Qed.

Lemma clean_text_cases (t : option string) :
  clean_text t = "" \/ exists s, clean_text t = cleaned s.
Proof.
  destruct t as [s|]; [|now left].
  rewrite clean_text_some. destruct (is_empty s); [now left|right; now exists s].
Qed.

Lemma cleaned_fixed (s : string) : clean_text (Some (cleaned s)) = cleaned s.
Proof.
  rewrite clean_text_some.
  destruct (is_empty (cleaned s)) eqn:He.
  - destruct (cleaned s); [reflexivity|discriminate].
  - unfold cleaned at 1. unfold re.sub_s_plus.
    rewrite (sub_spaces_collapsed _ false (cleaned_collapsed s false)).
    unfold cleaned. apply strip_fixed.
Qed.

Lemma clean_text_normalized (t : option string) : normalized (clean_text t) = true.
Proof.
  destruct (clean_text_cases t) as [H|[s H]]; rewrite H; [reflexivity|].
  unfold normalized. destruct (is_empty (cleaned s)) eqn:He; [reflexivity|]. simpl.
  apply normalized_from_fixed.
  - apply cleaned_collapsed.
  - unfold cleaned, strip. apply rstrip_idempotent.
  - intros E. rewrite E in He. discriminate.
Qed.

Lemma normalized_from_inv (s : string) :
  forall b, normalized_from b s = true -> s <> "" ->
            collapsed b s = true /\ rstrip isspace s = s.
Proof.
  induction s as [|c r IH]; intros b H Hne; [congruence|].
  rewrite rstrip_cons. simpl in *. destruct (isspace c) eqn:Hc.
  - apply andb_prop in H as [H Hr]. rewrite H. simpl.
    destruct r as [|c' r']; [destruct b; discriminate|].
    destruct (IH true Hr) as [Hcol Hfix]; [discriminate|].
    rewrite Hfix. auto.
  - destruct r as [|c' r']; [split; reflexivity|].
    destruct (IH false H) as [Hcol Hfix]; [discriminate|].
    rewrite Hfix. auto.
Qed.

Lemma normalized_fixed (s : string) :
  normalized s = true -> clean_text (Some s) = s.
Proof.
  unfold normalized. rewrite clean_text_some.
  destruct (is_empty s) eqn:He; simpl.
  - destruct s; [reflexivity|discriminate].
  - intros H.
    destruct (normalized_from_inv s true H) as [Hcol Hfix].
    { intros ->. discriminate. }
    unfold cleaned, re.sub_s_plus, strip.
    rewrite (sub_spaces_collapsed s false).
    + rewrite (lstrip_fixed s (collapsed_true_starts_clean s Hcol)). exact Hfix.
    + now rewrite (collapsed_starts_clean s (collapsed_true_starts_clean s Hcol) false true).
Qed.

End CleanText.

(** C7. Text normalization is idempotent: cleaning the result of
    [clean_text] returns it unchanged, whatever the input (a string or
    [None]); the results of [clean_text] are normalized, and every
    normalized string is returned unchanged; [clean_text("  a\n\n b  ")] is
    ["a b"]. *)
Theorem clean_text_idempotent :
  (forall s : string, clean_text (Some (clean_text (Some s))) = clean_text (Some s))
  /\ (forall t : option string, clean_text (Some (clean_text t)) = clean_text t)
  /\ (forall t : option string, normalized (clean_text t) = true)
  /\ (forall s : string, normalized s = true -> clean_text (Some s) = s)
  /\ clean_text (Some ("  a" ++ String PyStr.LF (String PyStr.LF " b  "))) = "a b".
Proof.
  assert (H : forall t : option string, clean_text (Some (clean_text t)) = clean_text t).
  { intros t. destruct (clean_text_cases t) as [E|[s E]]; rewrite E.
    - reflexivity.
    - apply cleaned_fixed. }
  split; [intros s; apply H|]. split; [exact H|].
  split; [exact clean_text_normalized|]. split; [exact normalized_fixed|].
  reflexivity.
Qed.

Lemma clean_text_idempotent_witness :
  normalized "a b" = true /\ clean_text (Some "a b") = "a b".
Proof.
  split; [reflexivity|].
  apply (proj1 (proj2 (proj2 (proj2 clean_text_idempotent))) "a b"). reflexivity.
Defined.

(** *** Loops and the tree queries *)

Open Scope list_scope.

Lemma fold_left_append_map {A B : Type} (f : A -> B) (xs : list A) :
  forall acc, fold_left (fun acc x => acc ++ [f x]) xs acc = acc ++ map f xs.
Proof.
  induction xs as [|x xs IH]; intros acc; simpl.
  - now rewrite app_nil_r.
  - rewrite IH, <- app_assoc. reflexivity.
Qed.

Lemma fold_left_add_sum (ns : list nat) :
  forall acc, fold_left Nat.add ns acc = acc + list_sum ns.
Proof.
  induction ns as [|n ns IH]; intros acc; simpl; [lia|]. rewrite IH. lia.
Qed.

Lemma find_all_matches names filters e x :
  In x (bs4.find_all names filters e) -> bs4.matches names filters x = true.
Proof. unfold bs4.find_all. intros H. now apply filter_In in H. Qed.

Lemma matches_has_attr names key e :
  bs4.matches names [(key, None)] e = true -> exists v, bs4.get e key = Some v.
Proof.
  unfold bs4.matches. destruct e as [name attrs contents| |]; try discriminate.
  intros H. apply andb_prop in H as [_ H]. simpl in H.
  unfold bs4.matches_attr in H. simpl fst in H. simpl snd in H.
  destruct (bs4.get (bs4.Tag name attrs contents) key) as [v|]; [now exists v|discriminate].
Qed.

Lemma find_all_has_attr names key e :
  Forall (fun x => exists v, bs4.get x key = Some v)
         (bs4.find_all names [(key, None)] e).
Proof.
  apply Forall_forall. intros x Hx.
  eapply matches_has_attr, find_all_matches, Hx.
Qed.

(** *** Tables *)

Lemma rows_body_spec (row : bs4.PageElement) (table_data : list (list string)) :
  rows_body table_data row
  = table_data ++ filter has_cells [row_cells row].
Proof.
  unfold rows_body. rewrite fold_left_append_map. simpl.
  unfold row_cells, texts_of.
  destruct (map _ (bs4.find_all ["td"; "th"] [] row)); simpl.
  - now rewrite app_nil_r.
  - reflexivity.
Qed.

Lemma rows_loop_spec (trs : list bs4.PageElement) :
  forall table_data,
    fold_left rows_body trs table_data
    = table_data ++ filter has_cells (map row_cells trs).
Proof.
  induction trs as [|row trs IH]; intros table_data; simpl.
  - now rewrite app_nil_r.
  - rewrite IH, rows_body_spec. simpl.
    destruct (has_cells (row_cells row)); simpl; rewrite <- app_assoc; reflexivity.
Qed.

Lemma tables_body_spec (table : bs4.PageElement) (tables : list Table.t) :
  tables_body tables table = tables ++ table_entry table.
Proof.
  unfold tables_body, table_entry.
  rewrite rows_loop_spec, fold_left_append_map. simpl.
  destruct (filter has_cells _); [now rewrite app_nil_r|reflexivity].
Qed.

Lemma tables_loop_spec (ts : list bs4.PageElement) :
  forall tables,
    fold_left tables_body ts tables = tables ++ flat_map table_entry ts.
Proof.
  induction ts as [|t ts IH]; intros tables; simpl.
  - now rewrite app_nil_r.
  - rewrite IH, tables_body_spec, <- app_assoc. reflexivity.
Qed.

Lemma extract_tables_spec (soup : bs4.PageElement) :
  extract_tables soup
  = flat_map table_entry (firstn 10 (bs4.find_all ["table"] [] soup)).
Proof. unfold extract_tables. now rewrite tables_loop_spec. Qed.

Lemma table_entry_no_cells (table : bs4.PageElement) :
  Forall (fun row => bs4.find_all ["td"; "th"] [] row = [])
         (bs4.find_all ["tr"] [] table) ->
  table_entry table = [].
Proof.
  unfold table_entry. intros H.
  assert (E : filter has_cells (map row_cells (bs4.find_all ["tr"] [] table)) = []).
  { induction H as [|row rows Hrow _ IH]; [reflexivity|].
    simpl. unfold row_cells at 1. rewrite Hrow. exact IH. }
  now rewrite E.
Qed.

(** *** Loops that resolve a reference and keep the valid results *)

Section ResolveLoop.

Variables (E : Type) (body : list E -> bs4.PageElement -> result (list E)).
Variables (R : bs4.PageElement -> string -> Prop) (key : E -> string) (P : E -> Prop).

Hypothesis body_inv :
  forall acc x acc',
    body acc x = Ok acc' ->
    exists full,
      R x full
      /\ ((is_valid_url full = false /\ acc' = acc)
          \/ (is_valid_url full = true
              /\ exists e, acc' = acc ++ [e] /\ key e = full /\ P e)).

Lemma for_each_resolved (xs : list bs4.PageElement) :
  forall acc out,
    for_each body xs acc = Ok out ->
    exists resolved new,
      Forall2 R xs resolved
      /\ out = acc ++ new
      /\ map key new = filter is_valid_url resolved
      /\ Forall P new.
Proof.
  induction xs as [|x xs IH]; intros acc out H; simpl in H.
  - injection H as <-. exists [], []. rewrite app_nil_r. repeat split; constructor.
  - destruct (body acc x) as [acc'|e] eqn:Hb; [|discriminate]. cbn [bind] in H.
    destruct (body_inv _ _ _ Hb) as (full & HR & Hcase).
    destruct (IH _ _ H) as (resolved & new & HF & -> & Hmap & HP).
    destruct Hcase as [[Hv ->]|(Hv & e & -> & Hk & He)].
    + exists (full :: resolved), new. simpl. rewrite Hv.
      repeat split; auto.
    + exists (full :: resolved), (e :: new). simpl. rewrite Hv, Hk, Hmap.
      rewrite <- app_assoc. repeat split; auto.
Qed.

Variable Q : bs4.PageElement -> Prop.

Hypothesis body_total : forall acc x, Q x -> exists acc', body acc x = Ok acc'.

Lemma for_each_total (xs : list bs4.PageElement) :
  Forall Q xs -> forall acc, exists out, for_each body xs acc = Ok out.
Proof.
  induction 1 as [|x xs Hx _ IH]; intros acc; simpl.
  - now exists acc.
  - destruct (body_total acc x Hx) as [acc' ->]. cbn [bind]. apply IH.
Qed.

End ResolveLoop.

Lemma getitem_get e key v : bs4.getitem e key = Ok v <-> bs4.get e key = Some v.
Proof.
  unfold bs4.getitem. destruct (bs4.get e key); split; intros H;
    try discriminate; injection H as ->; reflexivity.
Qed.

Lemma is_valid_url_parses (u : string) :
  is_valid_url u = true ->
  exists p, urllib.urlparse u "" = Ok p
            /\ urllib.scheme p <> "" /\ urllib.netloc p <> "".
Proof.
  unfold is_valid_url. destruct (urllib.urlparse u "") as [p|e]; [|discriminate].
  simpl. intros H. exists p. split; [reflexivity|].
  destruct (urllib.scheme p), (urllib.netloc p); simpl in H;
    try discriminate; split; discriminate.
Qed.

(** When a joined URL is valid, the base it was joined with parses. *)
Lemma urljoin_valid_base_parses (base ref full : string) :
  urllib.urljoin base ref = Ok full ->
  is_valid_url full = true ->
  exists q, urllib.urlparse base "" = Ok q.
Proof.
  unfold urllib.urljoin. intros H Hv.
  destruct (PyStr.is_empty base) eqn:Hb.
  - destruct base; [|discriminate]. eexists. vm_compute. reflexivity.
  - destruct (PyStr.is_empty ref) eqn:Hr.
    + injection H as ->. destruct (is_valid_url_parses _ Hv) as (p & Hp & _).
      now exists p.
    + destruct (urllib.urlparse base "") as [q|e]; [now exists q|discriminate].
Qed.

Lemma links_body_inv url links link links' :
  links_body url links link = Ok links' ->
  exists full,
    resolves_to url "href" link full
    /\ ((is_valid_url full = false /\ links' = links)
        \/ (is_valid_url full = true
            /\ exists l, links' = links ++ [l] /\ Link.url l = full /\ link_ok url l)).
Proof.
  unfold links_body. intros H.
  destruct (bs4.getitem link "href") as [href|e] eqn:Hh; [|discriminate].
  apply getitem_get in Hh. cbn [bind] in H.
  destruct (urllib.urljoin url href) as [full|e] eqn:Hj; [|discriminate].
  cbn [bind] in H. exists full. split; [now exists href|].
  destruct (is_valid_url full) eqn:Hv.
  - right. split; [reflexivity|].
    destruct (urllib.urlparse full "") as [p|e] eqn:Hp; [|discriminate]. cbn [bind] in H.
    destruct (urllib.urlparse url "") as [q|e] eqn:Hq; [|discriminate]. cbn [bind] in H.
    injection H as <-. eexists. split; [reflexivity|]. split; [reflexivity|].
    split; [exact Hv|]. exists p, q. simpl. auto.
  - left. injection H as <-. auto.
Qed.

Lemma links_body_total url links link :
  (exists full, resolves_to url "href" link full) ->
  exists links', links_body url links link = Ok links'.
Proof.
  intros (full & href & Hh & Hj). unfold links_body.
  apply getitem_get in Hh. rewrite Hh. cbn [bind]. rewrite Hj. cbn [bind].
  destruct (is_valid_url full) eqn:Hv; [|eauto].
  destruct (is_valid_url_parses _ Hv) as (p & -> & _).
  destruct (urljoin_valid_base_parses _ _ _ Hj Hv) as (q & ->).
  cbn [bind]. eauto.
Qed.

Lemma images_body_inv url images img images' :
  images_body url images img = Ok images' ->
  exists full,
    resolves_to url "src" img full
    /\ ((is_valid_url full = false /\ images' = images)
        \/ (is_valid_url full = true
            /\ exists i, images' = images ++ [i] /\ Image.src i = full
                         /\ is_valid_url (Image.src i) = true)).
Proof.
  unfold images_body. intros H.
  destruct (bs4.getitem img "src") as [src|e] eqn:Hs; [|discriminate].
  apply getitem_get in Hs. cbn [bind] in H.
  destruct (urllib.urljoin url src) as [full|e] eqn:Hj; [|discriminate].
  cbn [bind] in H. exists full. split; [now exists src|].
  destruct (is_valid_url full) eqn:Hv.
  - right. split; [reflexivity|]. injection H as <-.
    eexists. split; [reflexivity|]. split; [reflexivity|]. exact Hv.
  - left. injection H as <-. auto.
Qed.

Lemma extract_links_spec url soup links :
  extract_links url soup = Ok links ->
  exists resolved,
    Forall2 (resolves_to url "href")
            (firstn 100 (bs4.find_all ["a"] [("href", None)] soup)) resolved
    /\ map Link.url links = filter is_valid_url resolved
    /\ Forall (link_ok url) links.
Proof.
  unfold extract_links. intros H.
  destruct (for_each_resolved _ _ _ Link.url (link_ok url)
              (links_body_inv url) _ _ _ H) as (resolved & new & HF & -> & Hm & HP).
  exists resolved. simpl. auto.
Qed.

Lemma extract_images_spec url soup images :
  extract_images url soup = Ok images ->
  exists resolved,
    Forall2 (resolves_to url "src")
            (firstn 50 (bs4.find_all ["img"] [("src", None)] soup)) resolved
    /\ map Image.src images = filter is_valid_url resolved
    /\ Forall (fun i => is_valid_url (Image.src i) = true) images.
Proof.
  unfold extract_images. intros H.
  destruct (for_each_resolved _ _ _ Image.src
              (fun i => is_valid_url (Image.src i) = true)
              (images_body_inv url) _ _ _ H) as (resolved & new & HF & -> & Hm & HP).
  exists resolved. simpl. auto.
Qed.

(** *** What a successful scrape returns *)

Lemma scrape_website_Ok_try w url doc :
  scrape_website w url = Ok doc -> scrape_website_try w url = Ok doc.
Proof.
  unfold scrape_website.
  destruct (scrape_website_try w url) as [d|e]; [auto|]. destruct e; discriminate.
Qed.

Lemma scrape_website_inv w url doc :
  scrape_website w url = Ok doc ->
  exists response soup,
    requests_get w url = Ok response
    /\ requests.raise_for_status response = Ok tt
    /\ BeautifulSoup w (requests.content response) = Ok soup
    /\ extract_links url soup = Ok (links doc)
    /\ extract_images url soup = Ok (images doc)
    /\ tables doc = extract_tables soup
    /\ paragraphs doc = texts_of (firstn 50 (bs4.find_all ["p"] [] soup))
    /\ headings doc
       = map (fun h => (h, texts_of (bs4.find_all [h] [] soup)))
             ["h1"; "h2"; "h3"; "h4"; "h5"; "h6"]%string
    /\ Metadata.title (metadata doc)
       = clean_text
           match bs4.find ["title"] [] soup with
           | Some title => bs4.string title
           | None => Some "No Title"%string
           end
    /\ Metadata.description (metadata doc)
       = clean_text (Some (meta_content soup "description"))
    /\ Metadata.keywords (metadata doc)
       = clean_text (Some (meta_content soup "keywords"))
    /\ statistics doc
       = {| Statistics.total_headings :=
              fold_left Nat.add (map (fun kv => List.length (snd kv)) (headings doc)) 0;
            Statistics.total_paragraphs := List.length (paragraphs doc);
            Statistics.total_links := List.length (links doc);
            Statistics.total_images := List.length (images doc);
            Statistics.total_tables := List.length (tables doc);
            Statistics.external_links := List.length (filter Link.is_external (links doc)) |}.
Proof.
  intros H. apply scrape_website_Ok_try in H. unfold scrape_website_try in H.
  destruct (requests_get w url) as [response|e] eqn:Hg; [|discriminate].
  cbn [bind] in H.
  destruct (requests.raise_for_status response) as [[]|e] eqn:Hs; [|discriminate].
  cbn [bind] in H.
  destruct (BeautifulSoup w (requests.content response)) as [soup|e] eqn:Hp;
    [|discriminate].
  cbn [bind] in H.
  destruct (extract_links url _) as [ls|e] eqn:Hl; [|discriminate]. cbn [bind] in H.
  destruct (extract_images url _) as [imgs|e] eqn:Hi; [|discriminate]. cbn [bind] in H.
  injection H as <-. exists response, soup. cbn [links images tables paragraphs headings
    metadata statistics Metadata.title Metadata.description Metadata.keywords].
  repeat split; auto.
Qed.

(** The same with the response and the tree already at hand *)
Lemma scrape_website_inv_at w url response soup doc :
  requests_get w url = Ok response ->
  BeautifulSoup w (requests.content response) = Ok soup ->
  scrape_website w url = Ok doc ->
  extract_links url soup = Ok (links doc)
  /\ extract_images url soup = Ok (images doc)
  /\ tables doc = extract_tables soup
  /\ paragraphs doc = texts_of (firstn 50 (bs4.find_all ["p"] [] soup))
  /\ headings doc
     = map (fun h => (h, texts_of (bs4.find_all [h] [] soup)))
           ["h1"; "h2"; "h3"; "h4"; "h5"; "h6"]%string
  /\ Metadata.title (metadata doc)
     = clean_text
         match bs4.find ["title"] [] soup with
         | Some title => bs4.string title
         | None => Some "No Title"%string
         end.
Proof.
  intros Hg Hp H.
  destruct (scrape_website_inv _ _ _ H)
    as (response' & soup' & Hg' & _ & Hp' & Hl & Hi & Ht & Hpar & Hh & Htitle & _).
  rewrite Hg in Hg'. injection Hg' as <-. rewrite Hp in Hp'. injection Hp' as <-.
  repeat split; assumption.
Qed.

(** The tree of a page that was scraped *)
Lemma scrape_website_parsed w url response doc :
  requests_get w url = Ok response ->
  scrape_website w url = Ok doc ->
  exists soup, BeautifulSoup w (requests.content response) = Ok soup.
Proof.
  intros Hg H.
  destruct (scrape_website_inv _ _ _ H) as (response' & soup & Hg' & _ & Hp & _).
  rewrite Hg in Hg'. injection Hg' as <-. now exists soup.
Qed.

(** *** C1: tables *)

(** C1 (amended). For every successful scrape, [tables] is made of the
    entries of the first 10 [table] elements in document order, where the
    entry of a table has as headers the normalized texts of all its [th]
    cells and as rows, for each [tr] with at least one [td]/[th] cell, the
    normalized texts of those cells; a table all of whose rows have no cell
    gives no entry.  For a table with one [tr] of two [th] cells and one
    [tr] of two [td] cells the headers are [h1, h2] and the rows are the
    header row [h1, h2] followed by the data row of two cells. *)
Theorem tables_extracted :
  (forall w url doc,
      scrape_website w url = Ok doc ->
      exists response soup,
        requests_get w url = Ok response
        /\ BeautifulSoup w (requests.content response) = Ok soup
        /\ tables doc
           = flat_map table_entry (firstn 10 (bs4.find_all ["table"] [] soup)))
  /\ (forall table,
         Forall (fun row => bs4.find_all ["td"; "th"] [] row = [])
                (bs4.find_all ["tr"] [] table) ->
         table_entry table = [])
  /\ extract_tables (page [header_and_data_table])
     = [Table.mk ["h1"; "h2"] [["h1"; "h2"]; ["c1"; "c2"]]]%string
  /\ extract_tables (page [cell_less_table]) = [].
Proof.
  split; [|split; [exact table_entry_no_cells|split; reflexivity]].
  intros w url doc H.
  destruct (scrape_website_inv _ _ _ H)
    as (response & soup & Hg & _ & Hp & _ & _ & Ht & _).
  exists response, soup. split; [exact Hg|]. split; [exact Hp|].
  rewrite Ht. apply extract_tables_spec.
Qed.

Lemma tables_extracted_witness :
  exists doc,
    scrape_website (world_of 200 "OK" (page [header_and_data_table])) example_url = Ok doc
    /\ exists response soup,
      requests_get (world_of 200 "OK" (page [header_and_data_table])) example_url
      = Ok response
      /\ BeautifulSoup (world_of 200 "OK" (page [header_and_data_table]))
                       (requests.content response) = Ok soup
      /\ tables doc
         = flat_map table_entry (firstn 10 (bs4.find_all ["table"] [] soup)).
Proof.
  eexists. split; [vm_compute; reflexivity|].
  apply (proj1 tables_extracted (world_of 200 "OK" (page [header_and_data_table]))
               example_url).
  vm_compute. reflexivity.
Defined.

(** The table of one header row and one data row does not come out with a
    single row: the [th] row is a row as well. *)
Lemma header_row_is_a_row :
  ~ (exists doc data_row,
        scrape_website (world_of 200 "OK" (page [header_and_data_table])) example_url
        = Ok doc
        /\ tables doc = [Table.mk ["h1"; "h2"]%string [data_row]]
        /\ List.length data_row = 2).
Proof.
  intros (doc & data_row & H & Ht & _).
  vm_compute in H. injection H as <-. discriminate Ht.
Qed.

(** *** C2: failed fetches *)

(** C2 (amended). When the response has a status from 400 to 599,
    [scrape_website] returns no document: it raises [Exception] with the
    text ["Failed to fetch URL: "] followed by the HTTP error's text, which
    begins with the status code.  A request that fails before any response
    arrives is raised the same way, with the same exception class and the
    same prefix followed by that error's text. *)
Theorem bad_status_raises :
  (forall w url response,
      requests_get w url = Ok response ->
      400 <= requests.status_code response < 600 ->
      exists kind,
        (kind = " Client Error: " \/ kind = " Server Error: ")%string
        /\ scrape_website w url
           = Raise (Exception "Failed to fetch URL: "
                      (RequestException
                         (PyStr.str_of_nat (requests.status_code response)
                          ++ kind ++ requests.reason response
                          ++ " for url: " ++ requests.url response)%string)))
  /\ (forall w url msg,
         requests_get w url = Raise (RequestException msg) ->
         scrape_website w url
         = Raise (Exception "Failed to fetch URL: " (RequestException msg))).
Proof.
  split.
  - intros w url response Hg [Hlo Hhi].
    unfold scrape_website, scrape_website_try. rewrite Hg. cbn [bind].
    unfold requests.raise_for_status.
    destruct (requests.status_code response <? 500) eqn:H5.
    + exists " Client Error: "%string. split; [now left|].
      apply Nat.leb_le in Hlo. rewrite Hlo. reflexivity.
    + exists " Server Error: "%string. split; [now right|].
      rewrite andb_false_r.
      apply Nat.ltb_ge in H5.
      assert (H6 : (500 <=? requests.status_code response) = true)
        by now apply Nat.leb_le.
      assert (H7 : (requests.status_code response <? 600) = true)
        by now apply Nat.ltb_lt.
      rewrite H6, H7. reflexivity.
  - intros w url msg Hg. unfold scrape_website, scrape_website_try.
    rewrite Hg. reflexivity.
Qed.

Lemma bad_status_raises_witness :
  scrape_website (world_of 404 "Not Found" (page [])) "https://example.com/missing"
  = Raise (Exception "Failed to fetch URL: "
             (RequestException
                "404 Client Error: Not Found for url: https://example.com/missing"))
  /\ scrape_website (world_down "Connection refused") example_url
     = Raise (Exception "Failed to fetch URL: " (RequestException "Connection refused")).
Proof.
  split.
  - destruct (proj1 bad_status_raises (world_of 404 "Not Found" (page []))
                    "https://example.com/missing"%string
                    (requests.mkResponse 404 "Not Found" "https://example.com/missing"
                       [("Content-Type", "text/html")]%string "<html></html>")
                    eq_refl ltac:(simpl; lia)) as (kind & [-> | ->] & H).
    + exact H.
    + vm_compute in H. discriminate H.
  - apply (proj2 bad_status_raises (world_down "Connection refused") example_url).
    reflexivity.
Defined.

(** A response with status 304 is scraped like a success, and the failure
    for status 404 is the very value a failed connection with the same
    text gives. *)
Lemma bad_status_not_typed :
  (exists doc,
      scrape_website (world_of 304 "Not Modified" (page [])) example_url = Ok doc)
  /\ scrape_website (world_of 404 "Not Found" (page [])) "https://example.com/missing"
     = scrape_website
         (world_down "404 Client Error: Not Found for url: https://example.com/missing")
         "https://example.com/missing".
Proof.
  split; [eexists|]; vm_compute; reflexivity.
Qed.

(** *** C3: bounding *)

Lemma Forall2_length_eq {A B : Type} (R : A -> B -> Prop) xs ys :
  Forall2 R xs ys -> List.length xs = List.length ys.
Proof. induction 1; simpl; congruence. Qed.

Lemma filter_all_true {A : Type} (f : A -> bool) (xs : list A) :
  Forall (fun x => f x = true) xs -> filter f xs = xs.
Proof.
  induction 1 as [|x xs Hx _ IH]; simpl; [reflexivity|]. now rewrite Hx, IH.
Qed.

Lemma Forall2_Forall_right {A B : Type} (R : A -> B -> Prop) (P : B -> Prop) xs ys :
  Forall2 R xs ys -> Forall (fun x => forall y, R x y -> P y) xs -> Forall P ys.
Proof.
  induction 1 as [|x y xs ys Hxy _ IH]; intros HF; constructor;
    inversion HF; subst; auto.
Qed.

Lemma Forall_firstn_of {A : Type} (P : A -> Prop) (n : nat) (xs : list A) :
  Forall P xs -> Forall P (firstn n xs).
Proof.
  intros H. revert n. induction H as [|x xs Hx _ IH]; intros [|n]; simpl;
    constructor; auto.
Qed.

Lemma Forall_and_of {A : Type} (P Q : A -> Prop) (xs : list A) :
  Forall P xs -> Forall Q xs -> Forall (fun x => P x /\ Q x) xs.
Proof. induction 1; intros HQ; inversion HQ; subst; constructor; auto. Qed.

Lemma images_body_total url images img :
  (exists full, resolves_to url "src" img full) ->
  exists images', images_body url images img = Ok images'.
Proof.
  intros (full & src & Hs & Hj). unfold images_body.
  apply getitem_get in Hs. rewrite Hs. cbn [bind]. rewrite Hj. cbn [bind].
  destruct (is_valid_url full); eauto.
Qed.

Lemma joinable_resolves names url attr soup n :
  Forall (joinable url attr) (firstn n (bs4.find_all names [(attr, None)] soup)) ->
  Forall (fun a => exists full, resolves_to url attr a full)
         (firstn n (bs4.find_all names [(attr, None)] soup)).
Proof.
  intros H.
  pose proof (Forall_firstn_of _ n _ (find_all_has_attr names attr soup)) as Hattr.
  eapply Forall_impl; [|exact (Forall_and_of _ _ _ H Hattr)].
  intros a [Hj [ref Hr]]. destruct (Hj ref Hr) as [full Hfull].
  exists full, ref. auto.
Qed.

Lemma extract_links_total url soup :
  Forall (joinable url "href") (firstn 100 (anchors_of soup)) ->
  exists links, extract_links url soup = Ok links.
Proof.
  intros H. apply joinable_resolves in H. unfold extract_links.
  apply (for_each_total _ (links_body url) _ (links_body_total url) _ H).
Qed.

Lemma extract_images_total url soup :
  Forall (joinable url "src") (firstn 50 (imgs_of soup)) ->
  exists images, extract_images url soup = Ok images.
Proof.
  intros H. apply joinable_resolves in H. unfold extract_images.
  apply (for_each_total _ (images_body url) _ (images_body_total url) _ H).
Qed.

Lemma raise_for_status_ok (response : requests.Response) :
  requests.status_code response < 400 \/ 600 <= requests.status_code response ->
  requests.raise_for_status response = Ok tt.
Proof.
  intros H. unfold requests.raise_for_status.
  destruct (400 <=? requests.status_code response) eqn:H4;
    destruct (requests.status_code response <? 500) eqn:H5;
    destruct (500 <=? requests.status_code response) eqn:H6;
    destruct (requests.status_code response <? 600) eqn:H7;
    try reflexivity; exfalso;
    repeat match goal with
           | E : (_ <=? _) = true |- _ => apply Nat.leb_le in E
           | E : (_ <=? _) = false |- _ => apply Nat.leb_gt in E
           | E : (_ <? _) = true |- _ => apply Nat.ltb_lt in E
           | E : (_ <? _) = false |- _ => apply Nat.ltb_ge in E
           end; lia.
Qed.

(** A scrape succeeds whenever the response is not a 4xx or 5xx, the
    parser builds a tree from the body, and the references the loops look
    at can be joined with the page URL. *)
Lemma scrape_website_total w url response soup :
  requests_get w url = Ok response ->
  requests.status_code response < 400 \/ 600 <= requests.status_code response ->
  BeautifulSoup w (requests.content response) = Ok soup ->
  Forall (joinable url "href") (firstn 100 (anchors_of soup)) ->
  Forall (joinable url "src") (firstn 50 (imgs_of soup)) ->
  exists doc, scrape_website w url = Ok doc.
Proof.
  intros Hg Hs Hp Hl Hi. unfold scrape_website, scrape_website_try.
  rewrite Hg. cbn [bind]. rewrite (raise_for_status_ok _ Hs). cbn [bind].
  rewrite Hp. cbn [bind].
  destruct (extract_links_total _ _ Hl) as [ls ->]. cbn [bind].
  destruct (extract_images_total _ _ Hi) as [imgs ->]. cbn [bind].
  eexists. reflexivity.
Qed.

(** C3. Extraction truncates at its limits: [paragraphs] holds the first 50
    [p] elements (all of them when there are fewer) and [links] never has
    more entries than the first 100 anchors with an [href], exactly that
    many when each of them resolves to a valid URL.  Having more elements
    than the limits raises no error: the scrape returns a document whenever
    the response is not a 4xx or 5xx, the parser builds a tree from the
    body, and the references of the first 100 anchors and the first 50
    images of that tree can be joined with the page URL.  A page with 200
    paragraphs and 150 anchors yields 50 paragraphs and 100 links. *)
Theorem extraction_truncates :
  (forall w url response doc,
      requests_get w url = Ok response ->
      scrape_website w url = Ok doc ->
      exists soup,
        BeautifulSoup w (requests.content response) = Ok soup
        /\ List.length (paragraphs doc)
           = Nat.min 50 (List.length (bs4.find_all ["p"] [] soup))
        /\ List.length (paragraphs doc) <= 50
        /\ List.length (links doc) <= Nat.min 100 (List.length (anchors_of soup))
        /\ List.length (links doc) <= 100
        /\ (Forall (fun a => forall full,
                        resolves_to url "href" a full -> is_valid_url full = true)
                   (firstn 100 (anchors_of soup)) ->
            List.length (links doc) = Nat.min 100 (List.length (anchors_of soup))))
  /\ (forall w url response soup,
         requests_get w url = Ok response ->
         requests.status_code response < 400 \/ 600 <= requests.status_code response ->
         BeautifulSoup w (requests.content response) = Ok soup ->
         Forall (joinable url "href") (firstn 100 (anchors_of soup)) ->
         Forall (joinable url "src") (firstn 50 (imgs_of soup)) ->
         exists doc, scrape_website w url = Ok doc)
  /\ (exists doc,
         scrape_website (world_of 200 "OK" crowded_page) example_url = Ok doc
         /\ List.length (bs4.find_all ["p"] [] crowded_page) = 200
         /\ List.length (anchors_of crowded_page) = 150
         /\ List.length (paragraphs doc) = 50
         /\ List.length (links doc) = 100).
Proof.
  split; [|split; [exact scrape_website_total|]].
  - intros w url response doc Hg H.
    destruct (scrape_website_parsed _ _ _ _ Hg H) as [soup Hsoup].
    destruct (scrape_website_inv_at _ _ _ _ _ Hg Hsoup H) as (Hl & _ & _ & Hp & _).
    exists soup. split; [exact Hsoup|].
    destruct (extract_links_spec _ _ _ Hl) as (resolved & HF & Hm & _).
    fold (anchors_of soup) in HF.
    assert (Hlen : List.length (links doc) = List.length (filter is_valid_url resolved))
      by now rewrite <- Hm, length_map.
    assert (Hres : List.length resolved = Nat.min 100 (List.length (anchors_of soup)))
      by now rewrite <- (Forall2_length_eq _ _ _ HF), length_firstn.
    pose proof (filter_length_le is_valid_url resolved) as Hle.
    assert (Hpl : List.length (paragraphs doc)
                  = Nat.min 50 (List.length (bs4.find_all ["p"] [] soup))).
    { rewrite Hp. unfold texts_of. now rewrite length_map, length_firstn. }
    repeat split; try lia.
    intros Hall. rewrite Hlen, <- Hres. f_equal. apply filter_all_true.
    eapply Forall2_Forall_right; [exact HF|exact Hall].
  - eexists. split; [vm_compute; reflexivity|]. repeat split; vm_compute; reflexivity.
Qed.

Lemma extraction_truncates_witness :
  exists doc,
    scrape_website (world_of 200 "OK" crowded_page) example_url = Ok doc
    /\ List.length (paragraphs doc) = 50
    /\ List.length (links doc) <= 100.
Proof.
  eexists. split; [vm_compute; reflexivity|].
  match goal with
  | |- List.length (paragraphs ?d) = _ /\ _ =>
      assert (H : scrape_website (world_of 200 "OK" crowded_page) example_url = Ok d)
        by (vm_compute; reflexivity);
      assert (Hg : requests_get (world_of 200 "OK" crowded_page) example_url
                   = Ok (requests.mkResponse 200 "OK" example_url
                           [("Content-Type", "text/html")]%string "<html></html>"))
        by reflexivity;
      destruct (proj1 extraction_truncates _ _ _ _ Hg H)
        as (soup & Hsoup & Hp & _ & _ & Hl & _)
  end.
  split; [|exact Hl]. rewrite Hp. vm_compute in Hsoup. injection Hsoup as <-.
  vm_compute. reflexivity.
Defined.

(** *** C4: URL validation *)

(** C4. [is_valid_url] is a total predicate: it answers true exactly when
    the candidate parses into a result with a non-empty scheme and a
    non-empty network location, and false when parsing raises; it is false
    for ["not a url"], for ["//onlypath"] and for the unparsable
    ["http://[::1"]. *)
Theorem is_valid_url_spec :
  (forall candidate,
      is_valid_url candidate = true
      <-> exists r, urllib.urlparse candidate "" = Ok r
                    /\ urllib.scheme r <> ""%string
                    /\ urllib.netloc r <> ""%string)
  /\ (forall candidate e,
         urllib.urlparse candidate "" = Raise e -> is_valid_url candidate = false)
  /\ is_valid_url "not a url" = false
  /\ is_valid_url "//onlypath" = false
  /\ urllib.urlparse "http://[::1" "" = Raise (ValueError InvalidIPv6URL)
  /\ is_valid_url "http://[::1" = false
  /\ is_valid_url "https://example.com" = true.
Proof.
  split; [|split; [|repeat split; reflexivity]].
  - intros candidate. split; [apply is_valid_url_parses|].
    intros (r & Hr & Hs & Hn). unfold is_valid_url. rewrite Hr. simpl.
    destruct (urllib.scheme r), (urllib.netloc r); try congruence; reflexivity.
  - intros candidate e He. unfold is_valid_url. now rewrite He.
Qed.

Lemma is_valid_url_spec_witness :
  is_valid_url "https://example.com/a?b#c" = true
  /\ is_valid_url "http://[::1" = false.
Proof.
  split.
  - apply (proj1 is_valid_url_spec "https://example.com/a?b#c"%string).
    eexists. split; [vm_compute; reflexivity|]. split; discriminate.
  - apply (proj1 (proj2 is_valid_url_spec) "http://[::1"%string
                 (ValueError InvalidIPv6URL)).
    vm_compute. reflexivity.
Defined.

(** *** C5: external links *)

(** C5. For every entry of [links], [is_external] is true exactly when the
    network location of the entry's URL differs from the network location
    of the page URL.  From [https://example.com], a link to
    [https://other.org/x] is external and one resolving to
    [https://example.com/y] is not. *)
Theorem is_external_spec :
  (forall w url doc l,
      scrape_website w url = Ok doc ->
      In l (links doc) ->
      exists p q,
        urllib.urlparse (Link.url l) "" = Ok p
        /\ urllib.urlparse url "" = Ok q
        /\ (Link.is_external l = true <-> urllib.netloc p <> urllib.netloc q))
  /\ (exists doc,
         scrape_website (world_of 200 "OK" two_links_page) example_url = Ok doc
         /\ links doc
            = [Link.mk "other" "https://other.org/x" true;
               Link.mk "own" "https://example.com/y" false]%string).
Proof.
  split.
  - intros w url doc l H Hin.
    destruct (scrape_website_inv _ _ _ H) as (response & soup & _ & _ & _ & Hl & _).
    destruct (extract_links_spec _ _ _ Hl) as (_ & _ & _ & Hok).
    rewrite Forall_forall in Hok.
    destruct (Hok l Hin) as (_ & p & q & Hp & Hq & He).
    exists p, q. repeat split; auto.
    + intros Ht E. rewrite Ht in He. symmetry in He.
      apply negb_true_iff, String.eqb_neq in He. contradiction.
    + intros Hne. rewrite He. now apply negb_true_iff, String.eqb_neq.
  - eexists. split; vm_compute; reflexivity.
Qed.

Lemma is_external_spec_witness :
  exists p q,
    urllib.urlparse "https://other.org/x" "" = Ok p
    /\ urllib.urlparse example_url "" = Ok q
    /\ (true = true <-> urllib.netloc p <> urllib.netloc q).
Proof.
  assert (H : exists doc,
             scrape_website (world_of 200 "OK" two_links_page) example_url = Ok doc
             /\ In (Link.mk "other" "https://other.org/x" true) (links doc)).
  { eexists. split; [vm_compute; reflexivity|left; reflexivity]. }
  destruct H as (doc & H & Hin).
  exact (proj1 is_external_spec _ _ doc _ H Hin).
Defined.

(** *** C6: the URLs of the output are valid *)

(** C6. In every document produced, each URL in [links] and in [images]
    parses with a non-empty scheme and a non-empty network location; the
    URLs of [links] (of [images]) are those among the resolved references of
    the first 100 anchors (first 50 images) that pass validation, the others
    being left out. *)
Theorem output_urls_valid :
  forall w url doc,
    scrape_website w url = Ok doc ->
    Forall (fun l => has_scheme_and_netloc (Link.url l)) (links doc)
    /\ Forall (fun i => has_scheme_and_netloc (Image.src i)) (images doc)
    /\ exists response soup resolved_links resolved_images,
        requests_get w url = Ok response
        /\ BeautifulSoup w (requests.content response) = Ok soup
        /\ Forall2 (resolves_to url "href") (firstn 100 (anchors_of soup))
                   resolved_links
        /\ map Link.url (links doc) = filter is_valid_url resolved_links
        /\ Forall2 (resolves_to url "src") (firstn 50 (imgs_of soup))
                   resolved_images
        /\ map Image.src (images doc) = filter is_valid_url resolved_images.
Proof.
  intros w url doc H.
  destruct (scrape_website_inv _ _ _ H)
    as (response & soup & Hg & _ & Hp & Hl & Hi & _).
  destruct (extract_links_spec _ _ _ Hl) as (rl & HFl & Hml & Hokl).
  destruct (extract_images_spec _ _ _ Hi) as (ri & HFi & Hmi & Hoki).
  split; [|split].
  - eapply Forall_impl; [|exact Hokl]. intros l [Hv _].
    now apply is_valid_url_parses.
  - eapply Forall_impl; [|exact Hoki]. intros i Hv.
    now apply is_valid_url_parses.
  - exists response, soup, rl, ri. auto 10.
Qed.

Lemma output_urls_valid_witness :
  exists doc,
    scrape_website (world_of 200 "OK" mixed_page) example_url = Ok doc
    /\ map Link.url (links doc) = ["https://example.com/x"]%string
    /\ map Image.src (images doc) = ["https://example.com/pic.png"]%string
    /\ Forall (fun l => has_scheme_and_netloc (Link.url l)) (links doc).
Proof.
  eexists. split; [vm_compute; reflexivity|].
  split; [vm_compute; reflexivity|]. split; [vm_compute; reflexivity|].
  match goal with
  | |- Forall _ (links ?d) =>
      assert (H : scrape_website (world_of 200 "OK" mixed_page) example_url = Ok d)
        by (vm_compute; reflexivity);
      exact (proj1 (output_urls_valid _ _ _ H))
  end.
Defined.

(** *** C8: metadata *)

(** C8. Without a [title] element the title is ["No Title"]; without a
    [meta] tag named [description] (named [keywords]) the description (the
    keywords) is the empty string; with the elements present the fields are
    the cleaned title string and the cleaned [content] attributes; in every
    case the three fields are whitespace-normalized. *)
Theorem metadata_fallbacks :
  forall w url response doc,
    requests_get w url = Ok response ->
    scrape_website w url = Ok doc ->
    exists soup,
      BeautifulSoup w (requests.content response) = Ok soup
      /\ let m := metadata doc in
         (bs4.find ["title"] [] soup = None -> Metadata.title m = "No Title"%string)
         /\ (forall t, bs4.find ["title"] [] soup = Some t ->
                       Metadata.title m = clean_text (bs4.string t))
         /\ (bs4.find ["meta"] [("name", Some "description")] soup = None ->
             Metadata.description m = ""%string)
         /\ (bs4.find ["meta"] [("name", Some "keywords")] soup = None ->
             Metadata.keywords m = ""%string)
         /\ (forall tag,
                bs4.find ["meta"] [("name", Some "description")] soup = Some tag ->
                Metadata.description m
                = clean_text (Some (bs4.get_default tag "content" "")))
         /\ (forall tag,
                bs4.find ["meta"] [("name", Some "keywords")] soup = Some tag ->
                Metadata.keywords m
                = clean_text (Some (bs4.get_default tag "content" "")))
         /\ normalized (Metadata.title m) = true
         /\ normalized (Metadata.description m) = true
         /\ normalized (Metadata.keywords m) = true.
Proof.
  intros w url response doc Hg H.
  destruct (scrape_website_inv _ _ _ H)
    as (response' & soup & Hg' & _ & Hp & _ & _ & _ & _ & _ & Ht & Hd & Hk & _).
  rewrite Hg in Hg'. injection Hg' as <-.
  exists soup. split; [exact Hp|]. cbv zeta.
  rewrite Ht, Hd, Hk. unfold meta_content.
  repeat split; try apply clean_text_normalized.
  - intros E. now rewrite E.
  - intros t E. now rewrite E.
  - intros E. now rewrite E.
  - intros E. now rewrite E.
  - intros tag E. now rewrite E.
  - intros tag E. now rewrite E.
Qed.

Lemma metadata_fallbacks_witness :
  exists doc,
    scrape_website (world_of 200 "OK" (page [])) example_url = Ok doc
    /\ Metadata.title (metadata doc) = "No Title"%string
    /\ Metadata.description (metadata doc) = ""%string
    /\ Metadata.keywords (metadata doc) = ""%string.
Proof.
  eexists. split; [vm_compute; reflexivity|].
  match goal with
  | |- Metadata.title (metadata ?d) = _ /\ _ =>
      assert (H : scrape_website (world_of 200 "OK" (page [])) example_url = Ok d)
        by (vm_compute; reflexivity);
      assert (Hg : requests_get (world_of 200 "OK" (page [])) example_url
                   = Ok (requests.mkResponse 200 "OK" example_url
                           [("Content-Type", "text/html")]%string "<html></html>"))
        by reflexivity;
      destruct (metadata_fallbacks _ _ _ _ Hg H) as (soup & Hp & Ht & _ & Hd & Hk & _)
  end.
  vm_compute in Hp. injection Hp as <-.
  split; [apply Ht; reflexivity|]. split; [apply Hd|apply Hk]; reflexivity.
Defined.

(** *** C9: statistics *)

Lemma filter_length_count (bs : list Link.t) :
  List.length (filter Link.is_external bs)
  = count_occ Bool.bool_dec (map Link.is_external bs) true.
Proof.
  induction bs as [|b bs IH]; simpl; [reflexivity|].
  destruct (Link.is_external b); simpl; now rewrite IH.
Qed.

(** C9. The statistics of a produced document are the counts of its
    sequences: the headings of all six levels together, the paragraphs, the
    links, the images, the tables, and the links whose [is_external] is
    true; and the sequences are the extractors' results as they are. *)
Theorem statistics_are_counts :
  forall w url doc,
    scrape_website w url = Ok doc ->
    let st := statistics doc in
    Statistics.total_headings st
    = list_sum (map (fun kv => List.length (snd kv)) (headings doc))
    /\ map fst (headings doc) = ["h1"; "h2"; "h3"; "h4"; "h5"; "h6"]%string
    /\ Statistics.total_paragraphs st = List.length (paragraphs doc)
    /\ Statistics.total_links st = List.length (links doc)
    /\ Statistics.total_images st = List.length (images doc)
    /\ Statistics.total_tables st = List.length (tables doc)
    /\ Statistics.external_links st
       = count_occ Bool.bool_dec (map Link.is_external (links doc)) true
    /\ exists response soup,
        requests_get w url = Ok response
        /\ BeautifulSoup w (requests.content response) = Ok soup
        /\ headings doc
           = map (fun h => (h, texts_of (bs4.find_all [h] [] soup)))
                 ["h1"; "h2"; "h3"; "h4"; "h5"; "h6"]%string
        /\ paragraphs doc = texts_of (firstn 50 (bs4.find_all ["p"] [] soup))
        /\ extract_links url soup = Ok (links doc)
        /\ extract_images url soup = Ok (images doc)
        /\ tables doc = extract_tables soup.
Proof.
  intros w url doc H st.
  destruct (scrape_website_inv _ _ _ H)
    as (response & soup & Hg & _ & Hsoup & Hl & Hi & Ht & Hp & Hh & _ & _ & _ & Hst).
  subst st. rewrite Hst. cbn [Statistics.total_headings Statistics.total_paragraphs
    Statistics.total_links Statistics.total_images Statistics.total_tables
    Statistics.external_links].
  split; [apply fold_left_add_sum|].
  split; [rewrite Hh; reflexivity|].
  repeat (split; [reflexivity|]).
  split; [apply filter_length_count|].
  exists response, soup. auto 10.
Qed.

Lemma statistics_are_counts_witness :
  exists doc,
    scrape_website (world_of 200 "OK" minimal_page) example_url = Ok doc
    /\ Statistics.total_headings (statistics doc) = 1
    /\ Statistics.total_links (statistics doc) = List.length (links doc).
Proof.
  eexists. split; [vm_compute; reflexivity|].
  match goal with
  | |- Statistics.total_headings (statistics ?d) = _ /\ _ =>
      assert (H : scrape_website (world_of 200 "OK" minimal_page) example_url = Ok d)
        by (vm_compute; reflexivity);
      destruct (statistics_are_counts _ _ _ H) as (Hh & _ & _ & Hl & _)
  end.
  split; [rewrite Hh; vm_compute; reflexivity|exact Hl].
Defined.

(** *** C10: links are cut before they are filtered *)

Lemma extract_links_first_100 url soup soup' :
  firstn 100 (anchors_of soup) = firstn 100 (anchors_of soup') ->
  extract_links url soup = extract_links url soup'.
Proof. unfold extract_links, anchors_of. now intros ->. Qed.

(** C10. Link extraction takes the first 100 anchors that have an [href]
    and only then drops the ones whose resolved URL fails validation: the
    URLs of [links] are the valid ones among the resolved references of
    those 100 anchors, and two pages that agree on their first 100 anchors
    give the same links.  So a page of 10 anchors with a [mailto:]
    reference followed by 110 anchors that resolve to valid URLs yields 90
    links. *)
Theorem links_cut_then_filtered :
  (forall w url doc,
      scrape_website w url = Ok doc ->
      exists response soup resolved,
        requests_get w url = Ok response
        /\ BeautifulSoup w (requests.content response) = Ok soup
        /\ Forall2 (resolves_to url "href") (firstn 100 (anchors_of soup)) resolved
        /\ map Link.url (links doc) = filter is_valid_url resolved)
  /\ (forall url soup soup',
         firstn 100 (anchors_of soup) = firstn 100 (anchors_of soup') ->
         extract_links url soup = extract_links url soup')
  /\ (exists doc,
         scrape_website (world_of 200 "OK" mailto_first_page) example_url = Ok doc
         /\ List.length (filter (resolves_valid example_url "href")
                                (anchors_of mailto_first_page)) = 110
         /\ List.length (links doc) = 90).
Proof.
  split; [|split; [exact extract_links_first_100|]].
  - intros w url doc H.
    destruct (scrape_website_inv _ _ _ H) as (response & soup & Hg & _ & Hp & Hl & _).
    destruct (extract_links_spec _ _ _ Hl) as (resolved & HF & Hm & _).
    now exists response, soup, resolved.
  - eexists. split; [vm_compute; reflexivity|]. split; vm_compute; reflexivity.
Qed.

Lemma links_cut_then_filtered_witness :
  extract_links example_url mailto_first_page
  = extract_links example_url
      (page (repeat (anchor "mailto:someone" "mail") 10
             ++ repeat (anchor "/x" "link") 90)).
Proof.
  apply (proj1 (proj2 links_cut_then_filtered) example_url).
  vm_compute. reflexivity.
Defined.

(** *** The model on the spec's worked examples *)

Example urljoin_parent_directory :
  urllib.urljoin "https://example.com/dir/page.html" "../images/pic.png"
  = Ok "https://example.com/images/pic.png"%string.
Proof. vm_compute. reflexivity. Qed.

Example urlparse_components :
  urllib.urlparse "HTTP://user@Example.com:8080/a/b;p?q=1#top" ""
  = Ok (urllib.mkParseResult "http" "user@Example.com:8080" "/a/b" "p" "q=1" "top").
Proof. vm_compute. reflexivity. Qed.

Example minimal_page_scraped :
  exists doc,
    scrape_website (world_of 200 "OK" minimal_page) example_url = Ok doc
    /\ Metadata.title (metadata doc) = "T"%string
    /\ headings doc
       = [("h1", ["Hi"]); ("h2", []); ("h3", []); ("h4", []); ("h5", []); ("h6", [])]%string
    /\ paragraphs doc = ["Hello world"]%string
    /\ links doc = [Link.mk "link" "https://example.com/x" false]
    /\ Statistics.total_links (statistics doc) = 1.
Proof.
  eexists. split; [vm_compute; reflexivity|]. repeat split; vm_compute; reflexivity.
Qed.

Example mixed_page_images :
  extract_images example_url mixed_page
  = Ok [Image.mk "https://example.com/pic.png" "a picture" ""].
Proof. vm_compute. reflexivity. Qed.

(* ================================================================== *)
(** ** Further properties of the code *)

(** *** [clean_text] and the words of a text *)

Section CleanTextWords.
Import PyStr.

Lemma lstrip_sub_spaces (s : string) :
  lstrip isspace (re.sub_spaces " " false s) = re.sub_spaces " " true s.
Proof.
  destruct s as [|c r]; [reflexivity|]. simpl.
  destruct (isspace c) eqn:Hc; simpl; [|now rewrite Hc].
  apply lstrip_fixed, collapsed_true_starts_clean, collapsed_sub_spaces.
Qed.

Lemma join_cons_char (c : ascii) (w : string) (ws : list string) :
  join " " (String c w :: ws) = String c (join " " (w :: ws)).
Proof. destruct ws; reflexivity. Qed.

Lemma join_cons_cons (sep p q : string) (rest : list string) :
  join sep (p :: q :: rest) = (p ++ sep ++ join sep (q :: rest))%string.
Proof. reflexivity. Qed.

Lemma words_cons_nonspace (c : ascii) (r : string) :
  isspace c = false -> exists w ws, words (String c r) = String c w :: ws.
Proof.
  intros Hc. simpl. rewrite Hc. destruct r as [|d r']; [now exists "", []|].
  destruct (isspace d); [now exists "", (words (String d r'))|].
  destruct (words (String d r')) as [|w ws]; [now exists "", []|now exists w, ws].
Qed.

Lemma words_all_nonempty (s : string) : Forall (fun w => w <> "") (words s).
Proof.
  induction s as [|c r IH]; [constructor|]. simpl.
  destruct (isspace c); [exact IH|].
  destruct r as [|d r']; [repeat constructor; discriminate|].
  destruct (isspace d); [constructor; [discriminate|exact IH]|].
  destruct (words (String d r')) as [|w ws]; [repeat constructor; discriminate|].
  inversion IH; subst. constructor; [discriminate|assumption].
Qed.

Lemma join_words_empty (s : string) : join " " (words s) = "" -> words s = [].
Proof.
  pose proof (words_all_nonempty s) as H.
  destruct (words s) as [|w ws]; [reflexivity|].
  inversion H as [|? ? Hw _]; subst.
  destruct w as [|c w]; [congruence|]. rewrite join_cons_char. discriminate.
Qed.

Lemma words_space (c : ascii) (r : string) :
  isspace c = true -> words (String c r) = words r.
Proof. intros H. simpl. now rewrite H. Qed.

Lemma words_last_char (c : ascii) :
  isspace c = false -> words (String c "") = [String c ""].
Proof. intros H. simpl. now rewrite H. Qed.

Lemma words_end_of_word (c d : ascii) (r : string) :
  isspace c = false -> isspace d = true ->
  words (String c (String d r)) = String c "" :: words (String d r).
Proof. intros Hc Hd. simpl. now rewrite Hc, Hd. Qed.

Lemma words_inside_word (c d : ascii) (r : string) :
  isspace c = false -> isspace d = false ->
  words (String c (String d r))
  = match words (String d r) with
    | w :: ws => String c w :: ws
    | [] => [String c ""]
    end.
Proof. intros Hc Hd. simpl. now rewrite Hc, Hd. Qed.

Lemma sub_spaces_skip (c : ascii) (r : string) :
  isspace c = true ->
  re.sub_spaces " " true (String c r) = re.sub_spaces " " true r
  /\ re.sub_spaces " " false (String c r) = String " " (re.sub_spaces " " true r).
Proof. intros H. simpl. now rewrite H. Qed.

Lemma sub_spaces_keep (c : ascii) (r : string) :
  isspace c = false ->
  forall b, re.sub_spaces " " b (String c r) = String c (re.sub_spaces " " false r).
Proof. intros H b. simpl. now rewrite H. Qed.

Lemma rstrip_sub_spaces_words (s : string) :
  rstrip isspace (re.sub_spaces " " true s) = join " " (words s).
Proof.
  induction s as [|c r IH]; [reflexivity|].
  destruct (isspace c) eqn:Hc.
  - rewrite (proj1 (sub_spaces_skip c r Hc)), (words_space c r Hc). exact IH.
  - rewrite (sub_spaces_keep c r Hc), rstrip_cons, Hc.
    destruct r as [|d r'].
    + rewrite (words_last_char c Hc). reflexivity.
    + destruct (isspace d) eqn:Hd.
      * rewrite (words_end_of_word c d r' Hc Hd).
        rewrite (proj1 (sub_spaces_skip d r' Hd)) in IH.
        rewrite (proj2 (sub_spaces_skip d r' Hd)), rstrip_cons, IH.
        destruct (join " " (words (String d r'))) as [|c' x] eqn:HJ.
        -- cbn [isspace]. rewrite (join_words_empty _ HJ). reflexivity.
        -- destruct (words (String d r')) as [|w ws] eqn:Hw; [discriminate|].
           rewrite join_cons_cons, HJ. reflexivity.
      * rewrite (words_inside_word c d r' Hc Hd).
        rewrite (sub_spaces_keep d r' Hd true) in IH.
        rewrite (sub_spaces_keep d r' Hd false), IH.
        destruct (words_cons_nonspace d r' Hd) as (w & ws & Hw).
        rewrite Hw, !join_cons_char. reflexivity.
Qed.

Lemma words_nil_iff (s : string) : words s = [] <-> forallb isspace s = true.
Proof.
  induction s as [|c r IH]; [split; reflexivity|].
  destruct (isspace c) eqn:Hc.
  - simpl. rewrite Hc. exact IH.
  - destruct (words_cons_nonspace c r Hc) as (w & ws & ->).
    simpl. rewrite Hc. split; discriminate.
Qed.

Lemma non_whitespace_sub_spaces (s : string) :
  forall b, non_whitespace (re.sub_spaces " " b s) = non_whitespace s.
Proof.
  induction s as [|c r IH]; intros b; [reflexivity|]. simpl.
  destruct (isspace c) eqn:Hc.
  - destruct b; simpl; apply IH.
  - simpl. now rewrite Hc, IH.
Qed.

Lemma non_whitespace_lstrip (s : string) :
  non_whitespace (lstrip isspace s) = non_whitespace s.
Proof.
  induction s as [|c r IH]; [reflexivity|]. simpl.
  destruct (isspace c) eqn:Hc; [exact IH|]. simpl. now rewrite Hc.
Qed.

Lemma non_whitespace_rstrip (s : string) :
  non_whitespace (rstrip isspace s) = non_whitespace s.
Proof.
  induction s as [|c r IH]; [reflexivity|]. rewrite rstrip_cons.
  cbn [non_whitespace]. rewrite <- IH.
  destruct (rstrip isspace r) as [|c' r'].
  - destruct (isspace c) eqn:Hc; simpl; [reflexivity|now rewrite Hc].
  - reflexivity.
Qed.

Lemma length_sub_spaces (s : string) :
  forall b, String.length (re.sub_spaces " " b s) <= String.length s.
Proof.
  induction s as [|c r IH]; intros b; simpl; [lia|].
  destruct (isspace c).
  - destruct b; simpl; [specialize (IH true)|specialize (IH true)]; lia.
  - simpl. specialize (IH false). lia.
Qed.

Lemma length_lstrip (s : string) :
  String.length (lstrip isspace s) <= String.length s.
Proof.
  induction s as [|c r IH]; simpl; [lia|]. destruct (isspace c); simpl; lia.
Qed.

Lemma length_rstrip (s : string) :
  String.length (rstrip isspace s) <= String.length s.
Proof.
  induction s as [|c r IH]; [simpl; lia|]. rewrite rstrip_cons.
  destruct (rstrip isspace r) as [|c' r']; [destruct (isspace c)|]; simpl in *; lia.
Qed.

End CleanTextWords.

Lemma clean_text_as_words (s : string) :
  clean_text (Some s) = PyStr.join " " (words s).
Proof.
  rewrite clean_text_some. destruct s as [|c r]; [reflexivity|].
  cbn [PyStr.is_empty]. unfold cleaned, PyStr.strip, re.sub_s_plus.
  rewrite lstrip_sub_spaces. apply rstrip_sub_spaces_words.
Qed.

(** X1. [clean_text] joins the words of the text with single spaces:
    [clean_text(s) == ' '.join(s.split())]. *)
Theorem clean_text_joins_words (s : string) :
  clean_text (Some s) = PyStr.join " " (words s).
Proof. exact (clean_text_as_words s). Qed.

(** X2. [clean_text] returns the empty string exactly for [None] and for
    texts made of whitespace only (the empty text among them). *)
Theorem clean_text_empty_iff (t : option string) :
  clean_text t = ""%string
  <-> t = None \/ exists s, t = Some s /\ PyStr.forallb PyStr.isspace s = true.
Proof.
  destruct t as [s|].
  - rewrite clean_text_as_words. split.
    + intros H. right. exists s. split; [reflexivity|].
      now apply words_nil_iff, join_words_empty.
    + intros [H|(s' & H & Hs)]; [discriminate|]. injection H as <-.
      apply words_nil_iff in Hs. now rewrite Hs.
  - split; [now left|reflexivity].
Qed.

Lemma clean_text_empty_iff_witness :
  clean_text (Some (String PyStr.TAB (String PyStr.LF "  "))) = ""%string.
Proof.
  apply (proj2 (clean_text_empty_iff _)). right. eexists.
  split; [reflexivity|]. reflexivity.
Defined.

(** X3. [clean_text] changes whitespace only: the characters that are not
    whitespace stay as they are and in their order, and the result is never
    longer than the text. *)
Theorem clean_text_only_whitespace (s : string) :
  non_whitespace (clean_text (Some s)) = non_whitespace s
  /\ String.length (clean_text (Some s)) <= String.length s.
Proof.
  rewrite clean_text_some. destruct s as [|c r]; [split; [reflexivity|simpl; lia]|].
  cbn [PyStr.is_empty]. unfold cleaned, PyStr.strip, re.sub_s_plus. split.
  - now rewrite non_whitespace_rstrip, non_whitespace_lstrip, non_whitespace_sub_spaces.
  - pose proof (length_rstrip (PyStr.lstrip PyStr.isspace
                                 (re.sub_spaces " " false (String c r)))).
    pose proof (length_lstrip (re.sub_spaces " " false (String c r))).
    pose proof (length_sub_spaces (String c r) false). lia.
Qed.

(** *** The entries of [links] and [images], one by one *)

Section KeepLoop.

Variables (E : Type) (body : list E -> bs4.PageElement -> result (list E)).
Variables (keep : bs4.PageElement -> bool) (Rel : bs4.PageElement -> E -> Prop).

Hypothesis body_keep :
  forall acc x acc',
    body acc x = Ok acc' ->
    (keep x = false /\ acc' = acc)
    \/ (keep x = true /\ exists e, acc' = acc ++ [e] /\ Rel x e).

Lemma for_each_kept (xs : list bs4.PageElement) :
  forall acc out,
    for_each body xs acc = Ok out ->
    exists new, out = acc ++ new /\ Forall2 Rel (filter keep xs) new.
Proof.
  induction xs as [|x xs IH]; intros acc out H; simpl in H.
  - injection H as <-. exists []. rewrite app_nil_r. split; constructor.
  - destruct (body acc x) as [acc'|e] eqn:Hb; [|discriminate]. cbn [bind] in H.
    destruct (IH _ _ H) as (new & -> & HF).
    destruct (body_keep _ _ _ Hb) as [[Hk ->]|(Hk & e & -> & He)]; simpl; rewrite Hk.
    + now exists new.
    + exists (e :: new). rewrite <- app_assoc. split; [reflexivity|now constructor].
Qed.

End KeepLoop.

Lemma links_body_keep url links a links' :
  links_body url links a = Ok links' ->
  (resolves_valid url "href" a = false /\ links' = links)
  \/ (resolves_valid url "href" a = true
      /\ exists l, links' = links ++ [l] /\ link_from url a l).
Proof.
  unfold links_body, resolves_valid, bs4.getitem. intros H.
  destruct (bs4.get a "href") as [href|] eqn:Hh; [|discriminate]. cbn [bind] in H.
  destruct (urllib.urljoin url href) as [full|e] eqn:Hj; [|discriminate].
  cbn [bind] in H. destruct (is_valid_url full) eqn:Hv.
  - right. split; [reflexivity|].
    destruct (urllib.urlparse full "") as [p|e]; [|discriminate]. cbn [bind] in H.
    destruct (urllib.urlparse url "") as [q|e]; [|discriminate]. cbn [bind] in H.
    injection H as <-. eexists. split; [reflexivity|]. split; [|reflexivity].
    now exists href.
  - left. injection H as <-. auto.
Qed.

Lemma images_body_keep url images i images' :
  images_body url images i = Ok images' ->
  (resolves_valid url "src" i = false /\ images' = images)
  \/ (resolves_valid url "src" i = true
      /\ exists e, images' = images ++ [e] /\ image_from url i e).
Proof.
  unfold images_body, resolves_valid, bs4.getitem. intros H.
  destruct (bs4.get i "src") as [src|] eqn:Hs; [|discriminate]. cbn [bind] in H.
  destruct (urllib.urljoin url src) as [full|e] eqn:Hj; [|discriminate].
  cbn [bind] in H. destruct (is_valid_url full) eqn:Hv.
  - right. split; [reflexivity|]. injection H as <-.
    eexists. split; [reflexivity|]. unfold image_from, bs4.get_default. simpl.
    split; [now exists src|]. split; [|reflexivity].
    destruct (bs4.get i "alt"); reflexivity.
  - left. injection H as <-. auto.
Qed.

(** Both facts at once for a successful scrape *)
Lemma scrape_website_entries w url response soup doc :
  requests_get w url = Ok response ->
  BeautifulSoup w (requests.content response) = Ok soup ->
  scrape_website w url = Ok doc ->
  Forall2 (link_from url)
          (filter (resolves_valid url "href") (firstn 100 (anchors_of soup)))
          (links doc)
  /\ Forall2 (image_from url)
             (filter (resolves_valid url "src") (firstn 50 (imgs_of soup)))
             (images doc).
Proof.
  intros Hg Hp H.
  destruct (scrape_website_inv_at _ _ _ _ _ Hg Hp H) as (Hl & Hi & _).
  destruct (for_each_kept _ _ _ _ (links_body_keep url) _ _ _ Hl) as (ls & -> & HFl).
  destruct (for_each_kept _ _ _ _ (images_body_keep url) _ _ _ Hi) as (imgs & -> & HFi).
  split; assumption.
Qed.

(** X4. The entries of [links] are, in document order, one for each of the
    first 100 anchors with an [href] whose joined reference is a valid URL;
    the entry carries that URL, and as text the anchor's cleaned text, or
    ["[No Text]"] when the cleaned text is empty. *)
Theorem links_follow_anchors :
  forall w url response doc,
    requests_get w url = Ok response ->
    scrape_website w url = Ok doc ->
    exists soup,
      BeautifulSoup w (requests.content response) = Ok soup
      /\ Forall2 (link_from url)
                 (filter (resolves_valid url "href") (firstn 100 (anchors_of soup)))
                 (links doc).
Proof.
  intros w url response doc Hg H.
  destruct (scrape_website_parsed _ _ _ _ Hg H) as [soup Hp].
  exists soup. split; [exact Hp|].
  exact (proj1 (scrape_website_entries _ _ _ _ _ Hg Hp H)).
Qed.

(** X5. The entries of [images] are, in document order, one for each of the
    first 50 [img] elements with a [src] whose joined reference is a valid
    URL, so there are never more than 50; the alternative text is the
    cleaned [alt] attribute (empty for an empty attribute) and
    ["No alt text"] only when the attribute is missing; the title is the
    [title] attribute unchanged, or empty. *)
Theorem images_follow_imgs :
  forall w url response doc,
    requests_get w url = Ok response ->
    scrape_website w url = Ok doc ->
    exists soup,
      BeautifulSoup w (requests.content response) = Ok soup
      /\ Forall2 (image_from url)
                 (filter (resolves_valid url "src") (firstn 50 (imgs_of soup)))
                 (images doc)
      /\ List.length (images doc) <= Nat.min 50 (List.length (imgs_of soup)).
Proof.
  intros w url response doc Hg H.
  destruct (scrape_website_parsed _ _ _ _ Hg H) as [soup Hp].
  exists soup. split; [exact Hp|].
  pose proof (proj2 (scrape_website_entries _ _ _ _ _ Hg Hp H)) as HF.
  split; [exact HF|].
  rewrite <- (Forall2_length_eq _ _ _ HF).
  etransitivity; [apply filter_length_le|]. now rewrite length_firstn.
Qed.

Lemma links_follow_anchors_witness :
  exists doc,
    scrape_website (world_of 200 "OK" mixed_page) example_url = Ok doc
    /\ Forall2 (link_from example_url)
               (filter (resolves_valid example_url "href")
                       (firstn 100 (anchors_of mixed_page)))
               (links doc).
Proof.
  eexists. split; [vm_compute; reflexivity|].
  match goal with
  | |- Forall2 _ _ (links ?d) =>
      assert (H : scrape_website (world_of 200 "OK" mixed_page) example_url = Ok d)
        by (vm_compute; reflexivity)
  end.
  assert (Hg : requests_get (world_of 200 "OK" mixed_page) example_url
               = Ok (ok_response example_url)) by reflexivity.
  destruct (links_follow_anchors _ _ _ _ Hg H) as (soup & Hp & HF).
  vm_compute in Hp. injection Hp as <-. exact HF.
Defined.

Lemma images_follow_imgs_witness :
  exists doc,
    scrape_website (world_of 200 "OK" mixed_page) example_url = Ok doc
    /\ List.length (images doc) <= Nat.min 50 (List.length (imgs_of mixed_page)).
Proof.
  eexists. split; [vm_compute; reflexivity|].
  match goal with
  | |- List.length (images ?d) <= _ =>
      assert (H : scrape_website (world_of 200 "OK" mixed_page) example_url = Ok d)
        by (vm_compute; reflexivity)
  end.
  assert (Hg : requests_get (world_of 200 "OK" mixed_page) example_url
               = Ok (ok_response example_url)) by reflexivity.
  destruct (images_follow_imgs _ _ _ _ Hg H) as (soup & Hp & _ & Hlen).
  vm_compute in Hp. injection Hp as <-. exact Hlen.
Defined.

(** *** Shape of the extracted texts and tables *)

Lemma texts_of_normalized (xs : list bs4.PageElement) :
  Forall (fun t => normalized t = true) (texts_of xs).
Proof.
  unfold texts_of. apply Forall_forall. intros t Ht.
  apply in_map_iff in Ht as (x & <- & _). apply clean_text_normalized.
Qed.

Lemma table_entry_shape (table : bs4.PageElement) :
  Forall (fun t =>
            Forall (fun h => normalized h = true) (Table.headers t)
            /\ Table.rows t <> []
            /\ Forall (fun row => row <> [] /\ Forall (fun c => normalized c = true) row)
                      (Table.rows t))
         (table_entry table).
Proof.
  unfold table_entry.
  destruct (filter has_cells (map row_cells (bs4.find_all ["tr"] [] table)))
    as [|row rows] eqn:E; constructor; [|constructor].
  cbn [Table.headers Table.rows]. split; [apply texts_of_normalized|].
  split; [discriminate|]. rewrite <- E. apply Forall_forall. intros r Hr.
  apply filter_In in Hr as [Hin Hc]. split.
  - destruct r; [discriminate|discriminate].
  - apply in_map_iff in Hin as (x & <- & _). apply texts_of_normalized.
Qed.

Lemma extract_tables_shape (soup : bs4.PageElement) :
  Forall (fun t =>
            Forall (fun h => normalized h = true) (Table.headers t)
            /\ Table.rows t <> []
            /\ Forall (fun row => row <> [] /\ Forall (fun c => normalized c = true) row)
                      (Table.rows t))
         (extract_tables soup).
Proof.
  rewrite extract_tables_spec. apply Forall_flat_map, Forall_forall.
  intros t _. apply table_entry_shape.
Qed.

Lemma Forall2_Forall_r {A B : Type} (R : A -> B -> Prop) (P : B -> Prop) xs ys :
  Forall2 R xs ys -> (forall x y, R x y -> P y) -> Forall P ys.
Proof. induction 1; intros HP; constructor; eauto. Qed.

(** X6. In every document produced, all extracted texts are
    whitespace-normalized: the headings of every level, the paragraphs, the
    link texts, the alternative texts of the images, and the header and row
    cells of the tables; a link text is moreover never empty. *)
Theorem text_fields_normalized :
  forall w url doc,
    scrape_website w url = Ok doc ->
    Forall (fun kv => Forall (fun t => normalized t = true) (snd kv)) (headings doc)
    /\ Forall (fun t => normalized t = true) (paragraphs doc)
    /\ Forall (fun l => normalized (Link.text l) = true /\ Link.text l <> ""%string)
              (links doc)
    /\ Forall (fun i => normalized (Image.alt i) = true) (images doc)
    /\ Forall (fun t =>
                 Forall (fun h => normalized h = true) (Table.headers t)
                 /\ Forall (Forall (fun c => normalized c = true)) (Table.rows t))
              (tables doc).
Proof.
  intros w url doc H.
  destruct (scrape_website_inv _ _ _ H)
    as (response & soup & Hg & _ & Hsoup & _ & _ & Ht & Hp & Hh & _).
  destruct (scrape_website_entries _ _ _ _ _ Hg Hsoup H) as [HFl HFi].
  repeat split.
  - rewrite Hh. apply Forall_forall. intros kv Hkv.
    apply in_map_iff in Hkv as (h & <- & _). apply texts_of_normalized.
  - rewrite Hp. apply texts_of_normalized.
  - eapply Forall2_Forall_r; [exact HFl|]. intros a l [_ Htext]. rewrite Htext.
    destruct (PyStr.is_empty (clean_text (Some (bs4.get_text a)))) eqn:He.
    + split; [reflexivity|discriminate].
    + split; [apply clean_text_normalized|].
      intros E. rewrite E in He. discriminate.
  - eapply Forall2_Forall_r; [exact HFi|]. intros i e (_ & Halt & _). rewrite Halt.
    destruct (bs4.get i "alt"); [apply clean_text_normalized|reflexivity].
  - rewrite Ht. eapply Forall_impl; [|apply extract_tables_shape].
    intros t (Hhd & _ & Hrows). split; [exact Hhd|].
    eapply Forall_impl; [|exact Hrows]. now intros row [_ Hrow].
Qed.

Lemma text_fields_normalized_witness :
  exists doc,
    scrape_website (world_of 200 "OK" mixed_page) example_url = Ok doc
    /\ Forall (fun i => normalized (Image.alt i) = true) (images doc).
Proof.
  eexists. split; [vm_compute; reflexivity|].
  match goal with
  | |- Forall _ (images ?d) =>
      assert (H : scrape_website (world_of 200 "OK" mixed_page) example_url = Ok d)
        by (vm_compute; reflexivity)
  end.
  exact (proj1 (proj2 (proj2 (proj2 (text_fields_normalized _ _ _ H))))).
Defined.

(** X7. Every table of a produced document has at least one row and every
    row at least one cell. *)
Theorem tables_have_cells :
  forall w url doc,
    scrape_website w url = Ok doc ->
    Forall (fun t => Table.rows t <> [] /\ Forall (fun row => row <> []) (Table.rows t))
           (tables doc).
Proof.
  intros w url doc H.
  destruct (scrape_website_inv _ _ _ H)
    as (response & soup & _ & _ & _ & _ & _ & Ht & _).
  rewrite Ht. eapply Forall_impl; [|apply extract_tables_shape].
  intros t (_ & Hne & Hrows). split; [exact Hne|].
  eapply Forall_impl; [|exact Hrows]. now intros row [Hrow _].
Qed.

Lemma tables_have_cells_witness :
  exists doc,
    scrape_website (world_of 200 "OK" (page [header_and_data_table; cell_less_table]))
                   example_url = Ok doc
    /\ Forall (fun t => Table.rows t <> [] /\ Forall (fun row => row <> []) (Table.rows t))
              (tables doc).
Proof.
  eexists. split; [vm_compute; reflexivity|].
  match goal with
  | |- Forall _ (tables ?d) =>
      assert (H : scrape_website
                    (world_of 200 "OK" (page [header_and_data_table; cell_less_table]))
                    example_url = Ok d)
        by (vm_compute; reflexivity)
  end.
  exact (tables_have_cells _ _ _ H).
Defined.

(** *** Sizes *)

Lemma flat_map_length_le {A B : Type} (f : A -> list B) (xs : list A) :
  (forall x, List.length (f x) <= 1) ->
  List.length (flat_map f xs) <= List.length xs.
Proof.
  intros Hf. induction xs as [|x xs IH]; simpl; [lia|].
  rewrite length_app. specialize (Hf x). lia.
Qed.

Lemma table_entry_length (table : bs4.PageElement) :
  List.length (table_entry table) <= 1.
Proof. unfold table_entry. destruct (filter _ _); simpl; lia. Qed.

(** X8. No more than 10 tables are extracted, and the statistics of a
    produced document respect the limits of the extractors: at most 50
    paragraphs, 100 links, 50 images and 10 tables are counted, and the
    external links are never more than the links. *)
Theorem statistics_bounded :
  forall w url doc,
    scrape_website w url = Ok doc ->
    let st := statistics doc in
    List.length (tables doc) <= 10
    /\ Statistics.total_paragraphs st <= 50
    /\ Statistics.total_links st <= 100
    /\ Statistics.total_images st <= 50
    /\ Statistics.total_tables st <= 10
    /\ Statistics.external_links st <= Statistics.total_links st.
Proof.
  intros w url doc H st.
  destruct (scrape_website_inv _ _ _ H)
    as (response & soup & Hg & _ & Hsoup & Hl & _ & Ht & Hp & _ & _ & _ & _ & Hst).
  destruct (scrape_website_entries _ _ _ _ _ Hg Hsoup H) as [HFl HFi].
  assert (Htab : List.length (tables doc) <= 10).
  { rewrite Ht, extract_tables_spec.
    etransitivity; [apply flat_map_length_le, table_entry_length|].
    rewrite length_firstn. lia. }
  assert (Hpar : List.length (paragraphs doc) <= 50).
  { rewrite Hp. unfold texts_of. rewrite length_map, length_firstn. lia. }
  assert (Hlin : List.length (links doc) <= 100).
  { rewrite <- (Forall2_length_eq _ _ _ HFl).
    etransitivity; [apply filter_length_le|]. rewrite length_firstn. lia. }
  assert (Himg : List.length (images doc) <= 50).
  { rewrite <- (Forall2_length_eq _ _ _ HFi).
    etransitivity; [apply filter_length_le|]. rewrite length_firstn. lia. }
  subst st. rewrite Hst. cbn [Statistics.total_paragraphs Statistics.total_links
    Statistics.total_images Statistics.total_tables Statistics.external_links].
  repeat split; try assumption. apply filter_length_le.
Qed.

Lemma statistics_bounded_witness :
  exists doc,
    scrape_website (world_of 200 "OK" crowded_page) example_url = Ok doc
    /\ Statistics.total_paragraphs (statistics doc) <= 50
    /\ Statistics.total_links (statistics doc) <= 100.
Proof.
  eexists. split; [vm_compute; reflexivity|].
  match goal with
  | |- Statistics.total_paragraphs (statistics ?d) <= _ /\ _ =>
      assert (H : scrape_website (world_of 200 "OK" crowded_page) example_url = Ok d)
        by (vm_compute; reflexivity);
      destruct (statistics_bounded _ _ _ H) as (_ & Hp & Hl & _)
  end.
  split; assumption.
Defined.

Lemma filter_length_split {A : Type} (f g h : A -> bool) (xs : list A) :
  (forall x, f x = g x || h x) ->
  (forall x, g x && h x = false) ->
  List.length (filter f xs) = List.length (filter g xs) + List.length (filter h xs).
Proof.
  intros Hf Hd. induction xs as [|x xs IH]; simpl; [reflexivity|].
  rewrite Hf. specialize (Hd x).
  destruct (g x), (h x); simpl in *; try discriminate; lia.
Qed.

Lemma find_all_length_cons (name : string) (names : list string) (e : bs4.PageElement) :
  PyStr.mem name names = false ->
  List.length (bs4.find_all (name :: names) [] e)
  = List.length (bs4.find_all [name] [] e) + List.length (bs4.find_all names [] e).
Proof.
  intros Hn. unfold bs4.find_all. apply filter_length_split.
  - intros [tag attrs contents| |]; try reflexivity.
    unfold bs4.matches, PyStr.mem. simpl. rewrite !andb_true_r, orb_false_r.
    reflexivity.
  - intros [tag attrs contents| |]; try reflexivity.
    unfold bs4.matches. simpl. rewrite !andb_true_r, orb_false_r.
    destruct (String.eqb tag name) eqn:E; [|reflexivity].
    apply String.eqb_eq in E. subst tag. exact Hn.
Qed.

(** X9. Headings have no limit: the list of each level has one text for
    every element of that level in the document, and [total_headings] is the
    number of [h1] to [h6] elements of the document. *)
Theorem headings_all_counted :
  forall w url response doc,
    requests_get w url = Ok response ->
    scrape_website w url = Ok doc ->
    exists soup,
      BeautifulSoup w (requests.content response) = Ok soup
      /\ Forall2 (fun h kv => fst kv = h
                              /\ List.length (snd kv)
                                 = List.length (bs4.find_all [h] [] soup))
                 heading_names (headings doc)
      /\ Statistics.total_headings (statistics doc)
         = List.length (bs4.find_all heading_names [] soup).
Proof.
  intros w url response doc Hg H.
  destruct (scrape_website_inv _ _ _ H)
    as (response' & soup & Hg' & _ & Hsoup & _ & _ & _ & _ & Hh & _ & _ & _ & Hst).
  rewrite Hg in Hg'. injection Hg' as <-. exists soup. split; [exact Hsoup|].
  assert (Hlen : forall h, List.length (texts_of (bs4.find_all [h] [] soup))
                           = List.length (bs4.find_all [h] [] soup))
    by (intros h; unfold texts_of; apply length_map).
  split.
  - rewrite Hh. unfold heading_names. simpl.
    repeat (constructor; [split; [reflexivity|apply Hlen]|]). constructor.
  - rewrite Hst. cbn [Statistics.total_headings]. rewrite Hh, fold_left_add_sum.
    unfold heading_names. simpl. rewrite !Hlen.
    rewrite (find_all_length_cons "h1" ["h2"; "h3"; "h4"; "h5"; "h6"]) by reflexivity.
    rewrite (find_all_length_cons "h2" ["h3"; "h4"; "h5"; "h6"]) by reflexivity.
    rewrite (find_all_length_cons "h3" ["h4"; "h5"; "h6"]) by reflexivity.
    rewrite (find_all_length_cons "h4" ["h5"; "h6"]) by reflexivity.
    rewrite (find_all_length_cons "h5" ["h6"]) by reflexivity.
    lia.
Qed.

Lemma headings_all_counted_witness :
  exists doc,
    scrape_website (world_of 200 "OK" headings_page) example_url = Ok doc
    /\ Statistics.total_headings (statistics doc) = 121.
Proof.
  eexists. split; [vm_compute; reflexivity|].
  match goal with
  | |- Statistics.total_headings (statistics ?d) = _ =>
      assert (H : scrape_website (world_of 200 "OK" headings_page) example_url = Ok d)
        by (vm_compute; reflexivity)
  end.
  assert (Hg : requests_get (world_of 200 "OK" headings_page) example_url
               = Ok (ok_response example_url)) by reflexivity.
  destruct (headings_all_counted _ _ _ _ Hg H) as (soup & Hp & _ & Hcount).
  vm_compute in Hp. injection Hp as <-. rewrite Hcount. vm_compute. reflexivity.
Defined.

(** *** How a scrape fails *)

Lemma bind_raise {A B : Type} (m : result A) (k : A -> result B) (e : exn) :
  bind m k = Raise e -> m = Raise e \/ exists a, m = Ok a /\ k a = Raise e.
Proof.
  destruct m as [a|e']; simpl; intros H; [right; eauto|left].
  injection H as <-. reflexivity.
Qed.

Lemma raise_value_error {A : Type} (why : value_error) (e : exn) :
  @Raise A (ValueError why) = Raise e -> is_value_error e.
Proof. intros H. injection H as <-. exact I. Qed.

Lemma ip_address_raises address e :
  ipaddress.ip_address address = Raise e -> is_value_error e.
Proof.
  unfold ipaddress.ip_address.
  destruct (ipaddress.IPv4Address address); [discriminate|].
  destruct (ipaddress.IPv6Address address); [discriminate|].
  apply raise_value_error.
Qed.

Lemma check_bracketed_host_raises hostname e :
  urllib._check_bracketed_host hostname = Raise e -> is_value_error e.
Proof.
  unfold urllib._check_bracketed_host.
  destruct (PyStr.startswith "v" hostname).
  - destruct (negb (urllib.match_ipvfuture hostname)); [apply raise_value_error|discriminate].
  - intros H. apply bind_raise in H as [H|(ip & _ & H)].
    + eapply ip_address_raises, H.
    + destruct ip; [eapply raise_value_error, H|discriminate].
Qed.

Lemma check_bracketed_netloc_raises netloc e :
  urllib._check_bracketed_netloc netloc = Raise e -> is_value_error e.
Proof.
  unfold urllib._check_bracketed_netloc.
  destruct (PyStr.rpartition "@" netloc) as [[? ?] hostname_and_port].
  destruct (PyStr.partition "[" hostname_and_port) as [[before open_br] bracketed].
  destruct open_br.
  - destruct (negb (PyStr.is_empty before)); [apply raise_value_error|].
    destruct (PyStr.partition "]" bracketed) as [[hostname ?] port].
    destruct (negb (PyStr.is_empty port) && negb (PyStr.startswith ":" port));
      [apply raise_value_error|apply check_bracketed_host_raises].
  - destruct (PyStr.partition ":" hostname_and_port) as [[hostname ?] port].
    apply check_bracketed_host_raises.
Qed.

Lemma urlsplit_raises url scheme e :
  urllib.urlsplit url scheme = Raise e -> is_value_error e.
Proof.
  unfold urllib.urlsplit. cbv zeta.
  match goal with
  | |- context [match ?x with (s, u) => _ end] => destruct x as [scheme' url']
  end.
  intros H. apply bind_raise in H as [H|([netloc u] & _ & H)].
  - destruct (String.eqb (PyStr.take 2 url') "//"); [|discriminate].
    destruct (urllib._splitnetloc url' 2) as [netloc u].
    match type of H with
    | (if ?c then _ else _) = _ => destruct c; [eapply raise_value_error, H|]
    end.
    match type of H with
    | (if ?c then _ else _) = _ => destruct c; [|discriminate]
    end.
    apply bind_raise in H as [H|(? & _ & H)]; [|discriminate].
    eapply check_bracketed_netloc_raises, H.
  - exfalso.
    destruct (if PyStr.contains "#" u then PyStr.split_once "#" u else (u, ""%string))
      as [u1 fragment].
    destruct (if PyStr.contains "?" u1 then PyStr.split_once "?" u1 else (u1, ""%string))
      as [u2 query].
    discriminate H.
Qed.

Lemma urlparse_raises url scheme e :
  urllib.urlparse url scheme = Raise e -> is_value_error e.
Proof.
  unfold urllib.urlparse. intros H.
  apply bind_raise in H as [H|([s n u q f] & _ & H)].
  - eapply urlsplit_raises, H.
  - exfalso.
    destruct (if PyStr.mem s urllib.uses_params && PyStr.contains ";" u
              then urllib._splitparams u else (u, ""%string)) as [u' params].
    discriminate H.
Qed.

Lemma urljoin_raises base ref e :
  urllib.urljoin base ref = Raise e -> is_value_error e.
Proof.
  unfold urllib.urljoin.
  destruct (PyStr.is_empty base); [discriminate|].
  destruct (PyStr.is_empty ref); [discriminate|].
  intros H. apply bind_raise in H as [H|([bs bn bp bpa bq bf] & _ & H)].
  - eapply urlparse_raises, H.
  - apply bind_raise in H as [H|([s n p pa q f] & _ & H)].
    + eapply urlparse_raises, H.
    + exfalso.
      repeat match type of H with
             | (if ?c then _ else _) = _ => destruct c
             | Ok _ = Raise _ => discriminate H
             end.
Qed.

Lemma for_each_app {A St : Type} (body : St -> A -> result St) (xs ys : list A) :
  forall s, for_each body (xs ++ ys) s = bind (for_each body xs s) (for_each body ys).
Proof.
  induction xs as [|x xs IH]; intros s; simpl; [reflexivity|].
  destruct (body s x); simpl; [apply IH|reflexivity].
Qed.

Lemma for_each_raise {A St : Type} (body : St -> A -> result St) (P : A -> Prop)
      (Q : exn -> Prop) :
  (forall s x e, P x -> body s x = Raise e -> Q e) ->
  forall xs s e, Forall P xs -> for_each body xs s = Raise e -> Q e.
Proof.
  intros Hb xs. induction xs as [|x xs IH]; intros s e HP H; simpl in H; [discriminate|].
  inversion HP; subst.
  apply bind_raise in H as [H|(s' & _ & H)]; eauto.
Qed.

Lemma links_body_raises url links a e :
  (exists v, bs4.get a "href" = Some v) ->
  links_body url links a = Raise e -> is_value_error e.
Proof.
  intros [v Hv]. unfold links_body, bs4.getitem. rewrite Hv. cbn [bind]. intros H.
  apply bind_raise in H as [H|(full & _ & H)]; [eapply urljoin_raises, H|].
  destruct (is_valid_url full); [|discriminate].
  apply bind_raise in H as [H|(p & _ & H)]; [eapply urlparse_raises, H|].
  apply bind_raise in H as [H|(q & _ & H)]; [eapply urlparse_raises, H|discriminate].
Qed.

Lemma images_body_raises url images i e :
  (exists v, bs4.get i "src" = Some v) ->
  images_body url images i = Raise e -> is_value_error e.
Proof.
  intros [v Hv]. unfold images_body, bs4.getitem. rewrite Hv. cbn [bind]. intros H.
  apply bind_raise in H as [H|(full & _ & H)]; [eapply urljoin_raises, H|].
  destruct (is_valid_url full); discriminate.
Qed.

Lemma extract_links_raises url soup e :
  extract_links url soup = Raise e -> is_value_error e.
Proof.
  unfold extract_links.
  apply (for_each_raise _ (fun a => exists v, bs4.get a "href" = Some v)).
  - intros s x e' Hx. now apply links_body_raises.
  - apply Forall_firstn_of, find_all_has_attr.
Qed.

Lemma extract_images_raises url soup e :
  extract_images url soup = Raise e -> is_value_error e.
Proof.
  unfold extract_images.
  apply (for_each_raise _ (fun a => exists v, bs4.get a "src" = Some v)).
  - intros s x e' Hx. now apply images_body_raises.
  - apply Forall_firstn_of, find_all_has_attr.
Qed.

Lemma status_is_error_dec (n : nat) : {400 <= n < 600} + {n < 400 \/ 600 <= n}.
Proof.
  destruct (le_lt_dec 400 n); [|right; lia].
  destruct (le_lt_dec 600 n); [right; lia|left; lia].
Qed.

Lemma raise_for_status_raises response e :
  requests.raise_for_status response = Raise e ->
  400 <= requests.status_code response < 600 /\ exists msg, e = RequestException msg.
Proof.
  intros H. destruct (status_is_error_dec (requests.status_code response)) as [Hs|Hs].
  - split; [exact Hs|]. unfold requests.raise_for_status in H.
    repeat match type of H with
           | (if ?c then _ else _) = _ => destruct c
           | Ok _ = Raise _ => discriminate H
           | Raise _ = Raise _ => injection H as <-
           end; eauto.
  - rewrite (raise_for_status_ok _ Hs) in H. discriminate.
Qed.

(** X10. Once a response has arrived, a scrape can fail in three ways
    only: for a status from 400 to 599 with ["Failed to fetch URL: "] and
    the HTTP error; when the parser raises on the body, with that exception
    passed through the [except] clauses (["Scraping failed: "] and its text
    for a markup the parser rejects); and otherwise with
    ["Scraping failed: "] and a [ValueError] of the URL functions.  No other
    exception, a [KeyError] for a missing attribute in particular, ever
    comes out. *)
Theorem scrape_failures_classified :
  forall w url response e,
    requests_get w url = Ok response ->
    scrape_website w url = Raise e ->
    (400 <= requests.status_code response < 600
     /\ exists msg, e = Exception "Failed to fetch URL: " (RequestException msg))
    \/ ((requests.status_code response < 400 \/ 600 <= requests.status_code response)
        /\ exists e',
            BeautifulSoup w (requests.content response) = Raise e'
            /\ e = match e' with
                   | RequestException _ => Exception "Failed to fetch URL: " e'
                   | _ => Exception "Scraping failed: " e'
                   end)
    \/ ((requests.status_code response < 400 \/ 600 <= requests.status_code response)
        /\ exists soup why,
            BeautifulSoup w (requests.content response) = Ok soup
            /\ e = Exception "Scraping failed: " (ValueError why)).
Proof.
  intros w url response e Hg H. unfold scrape_website in H.
  destruct (scrape_website_try w url) as [doc|e'] eqn:Ht; [discriminate|].
  unfold scrape_website_try in Ht. rewrite Hg in Ht. cbn [bind] in Ht.
  apply bind_raise in Ht as [Hs|([] & Hs & Ht)].
  - left. apply raise_for_status_raises in Hs as [Hs [msg ->]].
    split; [exact Hs|]. injection H as <-. now exists msg.
  - right.
    assert (Hok : requests.status_code response < 400
                  \/ 600 <= requests.status_code response).
    { destruct (status_is_error_dec (requests.status_code response)) as [Hbad|Hok];
        [|exact Hok].
      exfalso. unfold requests.raise_for_status in Hs.
      destruct Hbad as [Hlo Hhi]. apply Nat.leb_le in Hlo. rewrite Hlo in Hs.
      destruct (requests.status_code response <? 500) eqn:H5; [discriminate|].
      apply Nat.ltb_ge, Nat.leb_le in H5. apply Nat.ltb_lt in Hhi.
      rewrite H5, Hhi in Hs. discriminate. }
    apply bind_raise in Ht as [Hp|(soup & Hp & Ht)].
    + left. split; [exact Hok|]. exists e'. split; [exact Hp|].
      destruct e'; injection H as <-; reflexivity.
    + right. split; [exact Hok|].
      assert (Hv : is_value_error e').
      { apply bind_raise in Ht as [Ht|(ls & _ & Ht)]; [eapply extract_links_raises, Ht|].
        apply bind_raise in Ht as [Ht|(is' & _ & Ht)];
          [eapply extract_images_raises, Ht|].
        discriminate. }
      destruct e' as [why| | | |]; try contradiction.
      injection H as <-. now exists soup, why.
Qed.

Lemma scrape_failures_classified_witness :
  scrape_website
    (world_rejecting "The markup you provided was rejected by the parser.") example_url
  = Raise (Exception "Scraping failed: "
             (ParserRejectedMarkup "The markup you provided was rejected by the parser."))
  /\ exists why,
      scrape_website (world_of 200 "OK" broken_href_page) example_url
      = Raise (Exception "Scraping failed: " (ValueError why)).
Proof.
  split.
  - assert (Hg : requests_get
                   (world_rejecting "The markup you provided was rejected by the parser.")
                   example_url
                 = Ok (requests.mkResponse 200 "OK" example_url
                         [("Content-Type", "text/html")]%string "<![n")) by reflexivity.
    destruct (scrape_website
                (world_rejecting "The markup you provided was rejected by the parser.")
                example_url) as [doc|e] eqn:H; [vm_compute in H; discriminate H|].
    destruct (scrape_failures_classified _ _ _ _ Hg H)
      as [[Hs _]|[(_ & e' & Hp & ->)|(_ & soup & why & Hp & _)]].
    + simpl in Hs. lia.
    + vm_compute in Hp. injection Hp as <-. reflexivity.
    + vm_compute in Hp. discriminate Hp.
  - assert (Hg : requests_get (world_of 200 "OK" broken_href_page) example_url
                 = Ok (ok_response example_url)) by reflexivity.
    assert (H : scrape_website (world_of 200 "OK" broken_href_page) example_url
                = Raise (Exception "Scraping failed: " (ValueError InvalidIPv6URL)))
      by (vm_compute; reflexivity).
    destruct (scrape_failures_classified _ _ _ _ Hg H)
      as [[Hs _]|[(_ & e' & Hp & _)|(_ & soup & why & _ & E)]].
    + simpl in Hs. lia.
    + vm_compute in Hp. discriminate Hp.
    + exists why. rewrite H. f_equal. exact E.
Defined.

(** X11. One reference that cannot be joined makes the whole scrape fail:
    when the response is not a 4xx or 5xx, the parser has built a tree and,
    among its first 100 anchors, the references before some anchor can be
    joined but joining that anchor's reference raises, [scrape_website]
    raises ["Scraping failed: "] with that very exception and returns no
    document, whatever the rest of the page holds. *)
Theorem malformed_reference_aborts :
  forall w url response soup pre a post ref e,
    requests_get w url = Ok response ->
    requests.status_code response < 400 \/ 600 <= requests.status_code response ->
    BeautifulSoup w (requests.content response) = Ok soup ->
    firstn 100 (anchors_of soup) = pre ++ a :: post ->
    Forall (joinable url "href") pre ->
    bs4.get a "href" = Some ref ->
    urllib.urljoin url ref = Raise e ->
    scrape_website w url = Raise (Exception "Scraping failed: " e).
Proof.
  intros w url response soup pre a post ref e Hg Hs Hp Hsplit Hpre Ha Hj.
  assert (Hattr : Forall (fun x => exists v, bs4.get x "href" = Some v) (pre ++ a :: post)).
  { rewrite <- Hsplit. apply Forall_firstn_of, find_all_has_attr. }
  apply Forall_app in Hattr as [Hattr _].
  assert (Hres : Forall (fun x => exists full, resolves_to url "href" x full) pre).
  { eapply Forall_impl; [|exact (Forall_and_of _ _ _ Hpre Hattr)].
    intros x [Hx [v Hv]]. destruct (Hx v Hv) as [full Hfull]. exists full, v. auto. }
  destruct (for_each_total _ (links_body url) _ (links_body_total url) _ Hres [])
    as [acc Hacc].
  assert (Hl : extract_links url soup = Raise e).
  { unfold extract_links. fold (anchors_of soup).
    rewrite Hsplit, for_each_app, Hacc. cbn [bind for_each].
    unfold links_body at 1, bs4.getitem. rewrite Ha. cbn [bind]. rewrite Hj. reflexivity. }
  unfold scrape_website, scrape_website_try. rewrite Hg. cbn [bind].
  rewrite (raise_for_status_ok _ Hs). cbn [bind]. rewrite Hp. cbn [bind].
  rewrite Hl. cbn [bind].
  pose proof (urljoin_raises _ _ _ Hj) as Hv.
  destruct e; try contradiction. reflexivity.
Qed.

Lemma malformed_reference_aborts_witness :
  scrape_website (world_of 200 "OK" broken_href_page) example_url
  = Raise (Exception "Scraping failed: " (ValueError InvalidIPv6URL)).
Proof.
  apply (malformed_reference_aborts (world_of 200 "OK" broken_href_page) example_url
           (ok_response example_url) broken_href_page
           [anchor "/x" "first"] (anchor "http://[broken" "second") [anchor "/z" "third"]
           "http://[broken").
  - reflexivity.
  - left. simpl. lia.
  - reflexivity.
  - vm_compute. reflexivity.
  - constructor; [|constructor]. intros ref Href. vm_compute in Href.
    injection Href as <-. eexists. vm_compute. reflexivity.
  - reflexivity.
  - vm_compute. reflexivity.
Defined.

(** *** The routes *)

Lemma scrape_filename_not_latest (srv : Server) :
  String.eqb "data.json" (scrape_filename srv) = false.
Proof. reflexivity. Qed.

Lemma is_valid_url_truthy (u : string) : is_valid_url u = true -> truthy (JStr u) = true.
Proof. destruct u; [discriminate|reflexivity]. Qed.

Lemma api_scrape_no_url srv fs items :
  get_json srv = inr (JDict items) ->
  truthy (items_get items "url") = false ->
  api_scrape srv fs = ((JDict [("error", JStr "No URL provided")], 400), fs).
Proof.
  intros Hj Ht. unfold api_scrape. rewrite Hj. cbn [data_get]. now rewrite Ht.
Qed.

Lemma api_scrape_invalid_url srv fs items :
  get_json srv = inr (JDict items) ->
  truthy (items_get items "url") = true ->
  (forall u, items_get items "url" = JStr u -> is_valid_url u = false) ->
  api_scrape srv fs = ((JDict [("error", JStr "Invalid URL format")], 400), fs).
Proof.
  intros Hj Ht Hu. unfold api_scrape. rewrite Hj. cbn [data_get].
  rewrite Ht. cbn [negb]. unfold valid_url_string.
  destruct (items_get items "url") as [| | | |u| |]; try reflexivity.
  now rewrite (Hu u eq_refl).
Qed.

(** X12. A request whose ['url'] is anything but a string that
    [is_valid_url] accepts is answered with status 400 and no file is
    touched, whatever the network would answer: with ["No URL provided"]
    when the value is missing or falsy ([null], empty, zero, false), and
    with ["Invalid URL format"] otherwise (a number, a list, an object, a
    string without scheme or host). *)
Theorem api_scrape_rejects :
  forall srv fs items,
    get_json srv = inr (JDict items) ->
    (forall u, items_get items "url" = JStr u -> is_valid_url u = false) ->
    exists msg,
      api_scrape srv fs = ((JDict [("error", JStr msg)], 400), fs)
      /\ (truthy (items_get items "url") = false -> msg = "No URL provided"%string)
      /\ (truthy (items_get items "url") = true -> msg = "Invalid URL format"%string).
Proof.
  intros srv fs items Hj Hu.
  destruct (truthy (items_get items "url")) eqn:Ht.
  - exists "Invalid URL format"%string.
    split; [now apply (api_scrape_invalid_url srv fs items)|].
    split; [discriminate|reflexivity].
  - exists "No URL provided"%string.
    split; [now apply (api_scrape_no_url srv fs items)|].
    split; [reflexivity|discriminate].
Qed.

Lemma api_scrape_rejects_witness :
  exists msg,
    api_scrape (server_of (world_down "unreachable") (JStr "example.com/page")) no_files
    = ((JDict [("error", JStr msg)], 400), no_files)
    /\ msg = "Invalid URL format"%string.
Proof.
  destruct (api_scrape_rejects (server_of (world_down "unreachable")
                                          (JStr "example.com/page"))
                               no_files [("url", JStr "example.com/page")] eq_refl)
    as (msg & H & _ & Hm).
  - intros u Hu. injection Hu as <-. reflexivity.
  - exists msg. split; [exact H|]. apply Hm. reflexivity.
Defined.

(** X13. A body that is valid JSON but not an object ([null], a list, a
    number, a string) is answered with status 500, not 400: the lookup of
    ['url'] raises and the error text names the type. *)
Theorem api_scrape_body_not_object :
  forall srv fs data,
    get_json srv = inr data ->
    (forall items, data <> JDict items) ->
    api_scrape srv fs
    = (api_error ("'" ++ type_name data ++ "' object has no attribute 'get'")%string, fs).
Proof.
  intros srv fs data Hj Hd. unfold api_scrape. rewrite Hj.
  destruct data; try reflexivity. exfalso. now apply (Hd items).
Qed.

Lemma api_scrape_body_not_object_witness :
  api_scrape {| world := world_down "unreachable"; get_json := inr JNull;
                strftime_now := "20240101_000000"; open_error := fun _ => None |}
             no_files
  = (api_error "'NoneType' object has no attribute 'get'", no_files).
Proof.
  apply (api_scrape_body_not_object _ _ JNull); [reflexivity|].
  intros items H. discriminate H.
Defined.

(** X14. After a successful scrape the route answers 200 with the document
    and the name of the file it wrote; both that file and [data.json] hold
    the document, every other file is as before, and [/api/latest] then
    returns exactly the document that was sent. *)
Theorem api_scrape_then_latest :
  forall srv fs items u doc,
    get_json srv = inr (JDict items) ->
    items_get items "url" = JStr u ->
    is_valid_url u = true ->
    scrape_website (world srv) u = Ok doc ->
    open_error srv (scrape_filename srv) = None ->
    open_error srv "data.json" = None ->
    let fs' := snd (api_scrape srv fs) in
    fst (api_scrape srv fs)
    = (JDict [("success", JBool true);
              ("message", JStr "Website scraped successfully");
              ("data", json_of_document doc);
              ("filename", JStr (scrape_filename srv))], 200)
    /\ get_latest_data fs' = (json_of_document doc, 200)
    /\ fs' (scrape_filename srv) = Some (json_of_document doc)
    /\ forall name,
        name <> "data.json"%string -> name <> scrape_filename srv -> fs' name = fs name.
Proof.
  intros srv fs items u doc Hj Hu Hv Hs Ho1 Ho2 fs'. subst fs'.
  unfold api_scrape. rewrite Hj. cbn [data_get]. rewrite Hu.
  rewrite (is_valid_url_truthy u Hv). cbn [negb valid_url_string]. rewrite Hv, Hs.
  fold (scrape_filename srv). rewrite Ho1, Ho2. cbn [fst snd].
  split; [reflexivity|]. unfold get_latest_data, write.
  split; [reflexivity|]. split.
  - rewrite String.eqb_sym, scrape_filename_not_latest, String.eqb_refl. reflexivity.
  - intros name H1 H2. apply String.eqb_neq in H1, H2. now rewrite H1, H2.
Qed.

Lemma api_scrape_then_latest_witness :
  exists doc,
    scrape_website (world_of 200 "OK" minimal_page) example_url = Ok doc
    /\ get_latest_data
         (snd (api_scrape (server_of (world_of 200 "OK" minimal_page) (JStr example_url))
                          no_files))
       = (json_of_document doc, 200).
Proof.
  eexists. split; [vm_compute; reflexivity|].
  match goal with
  | |- _ = (json_of_document ?d, 200) =>
      assert (H : scrape_website (world_of 200 "OK" minimal_page) example_url = Ok d)
        by (vm_compute; reflexivity)
  end.
  refine (proj1 (proj2 (api_scrape_then_latest
                          (server_of (world_of 200 "OK" minimal_page) (JStr example_url))
                          no_files [("url", JStr example_url)] example_url _
                          eq_refl eq_refl _ H eq_refl eq_refl))).
  vm_compute. reflexivity.
Defined.

(** X15. When the scrape fails the route answers 500 with
    ['success': False] and the text of the exception, and no file is
    touched; for a page that answered with a status from 400 to 599 the
    text is ["Failed to fetch URL: "] followed by the status code and the
    HTTP error, so an upstream 404 comes back as a 500. *)
Theorem api_scrape_failure :
  forall srv fs items u,
    get_json srv = inr (JDict items) ->
    items_get items "url" = JStr u ->
    is_valid_url u = true ->
    (forall e,
        scrape_website (world srv) u = Raise e ->
        api_scrape srv fs = (api_error (PyRepr.str e), fs))
    /\ (forall response,
           requests_get (world srv) u = Ok response ->
           400 <= requests.status_code response < 600 ->
           exists kind,
             (kind = " Client Error: " \/ kind = " Server Error: ")%string
             /\ api_scrape srv fs
                = (api_error ("Failed to fetch URL: "
                              ++ PyStr.str_of_nat (requests.status_code response)
                              ++ kind ++ requests.reason response
                              ++ " for url: " ++ requests.url response)%string, fs)).
Proof.
  intros srv fs items u Hj Hu Hv.
  assert (Hfail : forall e, scrape_website (world srv) u = Raise e ->
                            api_scrape srv fs = (api_error (PyRepr.str e), fs)).
  { intros e He. unfold api_scrape. rewrite Hj. cbn [data_get]. rewrite Hu.
    rewrite (is_valid_url_truthy u Hv). cbn [negb valid_url_string].
    now rewrite Hv, He. }
  split; [exact Hfail|].
  intros response Hg [Hlo Hhi].
  assert (Hs : exists kind,
             (kind = " Client Error: " \/ kind = " Server Error: ")%string
             /\ scrape_website (world srv) u
                = Raise (Exception "Failed to fetch URL: "
                           (RequestException
                              (PyStr.str_of_nat (requests.status_code response)
                               ++ kind ++ requests.reason response
                               ++ " for url: " ++ requests.url response)%string))).
  { unfold scrape_website, scrape_website_try. rewrite Hg. cbn [bind].
    unfold requests.raise_for_status. apply Nat.leb_le in Hlo. rewrite Hlo.
    destruct (requests.status_code response <? 500) eqn:H5.
    - exists " Client Error: "%string. split; [now left|reflexivity].
    - exists " Server Error: "%string. split; [now right|].
      apply Nat.ltb_ge, Nat.leb_le in H5. apply Nat.ltb_lt in Hhi.
      cbn [andb]. rewrite H5, Hhi. reflexivity. }
  destruct Hs as (kind & Hk & Hs). exists kind. split; [exact Hk|].
  rewrite (Hfail _ Hs). reflexivity.
Qed.

Lemma api_scrape_failure_witness :
  api_scrape (server_of (world_of 404 "Not Found" (page []))
                        (JStr "https://example.com/missing")) no_files
  = (api_error
       "Failed to fetch URL: 404 Client Error: Not Found for url: https://example.com/missing",
     no_files).
Proof.
  apply (proj1 (api_scrape_failure
                  (server_of (world_of 404 "Not Found" (page []))
                             (JStr "https://example.com/missing"))
                  no_files [("url", JStr "https://example.com/missing")]
                  "https://example.com/missing" eq_refl eq_refl eq_refl)
               (Exception "Failed to fetch URL: "
                  (RequestException
                     "404 Client Error: Not Found for url: https://example.com/missing"))).
  vm_compute. reflexivity.
Defined.

Ltac api_scrape_cases srv :=
  unfold api_scrape; cbv zeta; fold (scrape_filename srv);
  repeat match goal with
         | |- context [match get_json srv with _ => _ end] =>
             destruct (get_json srv)
         | |- context [match data_get ?d ?k with _ => _ end] =>
             destruct (data_get d k)
         | |- context [if negb (truthy ?v) then _ else _] =>
             destruct (negb (truthy v))
         | |- context [match valid_url_string ?v with _ => _ end] =>
             destruct (valid_url_string v)
         | |- context [match scrape_website (world srv) ?u with _ => _ end] =>
             destruct (scrape_website (world srv) u)
         | |- context [match open_error srv ?n with _ => _ end] =>
             destruct (open_error srv n)
         end.

(** X16. [api_scrape] answers with status 200, 400 or 500 only; it writes
    no file other than [data.json] and the file named after the time of the
    request; and [data.json], the record that [/api/latest] serves, is
    replaced only when the answer is 200. *)
Theorem api_scrape_files :
  forall srv fs,
    let status := snd (fst (api_scrape srv fs)) in
    let fs' := snd (api_scrape srv fs) in
    (status = 200 \/ status = 400 \/ status = 500)
    /\ (forall name,
           name <> "data.json"%string -> name <> scrape_filename srv ->
           fs' name = fs name)
    /\ (status <> 200 -> fs' "data.json"%string = fs "data.json"%string).
Proof.
  intros srv fs. cbv zeta.
  assert (Hw : forall v name,
             name <> scrape_filename srv ->
             write fs (scrape_filename srv) v name = fs name).
  { intros v name H. unfold write. apply String.eqb_neq in H. now rewrite H. }
  api_scrape_cases srv; cbn [fst snd api_error].
  all: (split; [auto|split]).
  all: try (intros name _ _; reflexivity).
  all: try (intros _; reflexivity).
  - intros name _ H. now apply Hw.
  - intros name H1 H2. unfold write at 1. apply String.eqb_neq in H1. rewrite H1.
    now apply Hw.
  - intros H. now contradiction H.
Qed.

(** X17. When the document file is written but [data.json] cannot be
    opened, the route answers 500 with the text of that error although the
    document file now exists; [data.json] is left as it was. *)
Theorem api_scrape_second_write_fails :
  forall srv fs items u doc msg,
    get_json srv = inr (JDict items) ->
    items_get items "url" = JStr u ->
    is_valid_url u = true ->
    scrape_website (world srv) u = Ok doc ->
    open_error srv (scrape_filename srv) = None ->
    open_error srv "data.json" = Some msg ->
    fst (api_scrape srv fs) = api_error msg
    /\ snd (api_scrape srv fs) (scrape_filename srv) = Some (json_of_document doc)
    /\ snd (api_scrape srv fs) "data.json"%string = fs "data.json"%string.
Proof.
  intros srv fs items u doc msg Hj Hu Hv Hs Ho1 Ho2.
  unfold api_scrape. rewrite Hj. cbn [data_get]. rewrite Hu.
  rewrite (is_valid_url_truthy u Hv). cbn [negb valid_url_string]. rewrite Hv, Hs.
  fold (scrape_filename srv). rewrite Ho1, Ho2. cbn [fst snd]. unfold write.
  rewrite String.eqb_refl, scrape_filename_not_latest. auto.
Qed.

Lemma api_scrape_second_write_fails_witness :
  fst (api_scrape
         {| world := world_of 200 "OK" minimal_page;
            get_json := inr (JDict [("url", JStr example_url)]);
            strftime_now := "20240101_000000";
            open_error := fun name =>
              if String.eqb name "data.json"
              then Some "[Errno 13] Permission denied: 'data.json'"%string
              else None |}
         no_files)
  = api_error "[Errno 13] Permission denied: 'data.json'".
Proof.
  eapply (fun doc H =>
            proj1 (api_scrape_second_write_fails
                     {| world := world_of 200 "OK" minimal_page;
                        get_json := inr (JDict [("url", JStr example_url)]);
                        strftime_now := "20240101_000000";
                        open_error := fun name =>
                          if String.eqb name "data.json"
                          then Some "[Errno 13] Permission denied: 'data.json'"%string
                          else None |}
                     no_files [("url", JStr example_url)] example_url doc _
                     eq_refl eq_refl eq_refl H eq_refl eq_refl)).
  vm_compute. reflexivity.
Defined.

Lemma api_scrape_keeps_latest (srv : Server) (fs : Files) :
  fs "data.json"%string <> None -> snd (api_scrape srv fs) "data.json"%string <> None.
Proof.
  intros H.
  api_scrape_cases srv; cbn [fst snd]; try assumption.
  unfold write at 1. rewrite String.eqb_refl. discriminate.
Qed.

(** X18. From the start of the program on, [/api/latest] never answers 404,
    whatever requests [/api/scrape] has answered in between; and starting
    the program keeps a [data.json] that is already there. *)
Theorem latest_always_available :
  (forall requests fs, snd (get_latest_data (serve requests fs)) = 200)
  /\ (forall fs v, fs "data.json"%string = Some v -> startup fs = fs)
  /\ (forall fs, snd (get_latest_data fs) = 404 <-> fs "data.json"%string = None).
Proof.
  split; [|split].
  - intros requests fs.
    assert (H : serve requests fs "data.json"%string <> None).
    { unfold serve.
      assert (H0 : startup fs "data.json"%string <> None).
      { unfold startup. destruct (fs "data.json"%string) eqn:E; [congruence|].
        unfold write. rewrite String.eqb_refl. discriminate. }
      revert H0. generalize (startup fs). induction requests as [|srv rest IH];
        intros fs0 H0; simpl; [exact H0|].
      apply IH. now apply api_scrape_keeps_latest. }
    unfold get_latest_data. destruct (serve requests fs "data.json"%string);
      [reflexivity|congruence].
  - intros fs v H. unfold startup. now rewrite H.
  - intros fs. unfold get_latest_data. destruct (fs "data.json"%string);
      simpl; split; intros H; congruence.
Qed.

Lemma latest_always_available_witness :
  startup (write no_files "data.json" (JDict [])) = write no_files "data.json" (JDict []).
Proof.
  apply (proj1 (proj2 latest_always_available) _ (JDict [])). reflexivity.
Defined.

Lemma api_scrape_files_witness :
  snd (api_scrape (server_of (world_down "unreachable") (JStr "example.com")) no_files)
      "data.json"%string
  = no_files "data.json"%string.
Proof.
  apply (proj2 (proj2 (api_scrape_files
                         (server_of (world_down "unreachable") (JStr "example.com"))
                         no_files))).
  vm_compute. intros H. discriminate H.
Defined.

Lemma length_append (s t : string) :
  String.length (s ++ t) = String.length s + String.length t.
Proof. induction s as [|c s IH]; simpl; [reflexivity|now rewrite IH]. Qed.

Lemma append_cancel_r (s1 s2 t : string) : (s1 ++ t = s2 ++ t)%string -> s1 = s2.
Proof.
  intros E.
  assert (Hlen : String.length s1 = String.length s2).
  { apply (f_equal String.length) in E. rewrite !length_append in E. lia. }
  revert s2 E Hlen. induction s1 as [|c s1 IH]; intros [|c' s2] E Hlen;
    simpl in *; try reflexivity; try discriminate Hlen.
  injection E as -> E. f_equal. apply IH; [exact E|lia].
Qed.

Lemma write_same (fs : Files) (name : string) (v : json) :
  write fs name v name = Some v.
Proof. unfold write. now rewrite String.eqb_refl. Qed.

Lemma write_other (fs : Files) (name name' : string) (v : json) :
  String.eqb name' name = false -> write fs name v name' = fs name'.
Proof. unfold write. now intros ->. Qed.

Lemma api_scrape_success srv fs items u doc :
  get_json srv = inr (JDict items) ->
  items_get items "url" = JStr u ->
  is_valid_url u = true ->
  scrape_website (world srv) u = Ok doc ->
  open_error srv (scrape_filename srv) = None ->
  open_error srv "data.json" = None ->
  snd (api_scrape srv fs)
  = write (write fs (scrape_filename srv) (json_of_document doc))
          "data.json" (json_of_document doc).
Proof.
  intros Hj Hu Hv Hs Ho1 Ho2.
  unfold api_scrape. rewrite Hj. cbn [data_get]. rewrite Hu.
  rewrite (is_valid_url_truthy u Hv). cbn [negb valid_url_string]. rewrite Hv, Hs.
  fold (scrape_filename srv). rewrite Ho1, Ho2. reflexivity.
Qed.

(** X19. Documents are saved under a name with the time to the second: of
    two successful scrapes one after the other, [data.json] holds the
    second document; the first document's file is kept when the two times
    differ, and is overwritten by the second document when they are the
    same. *)
Theorem api_scrape_twice :
  forall srv1 srv2 fs items1 items2 u1 u2 doc1 doc2,
    get_json srv1 = inr (JDict items1) -> items_get items1 "url" = JStr u1 ->
    is_valid_url u1 = true -> scrape_website (world srv1) u1 = Ok doc1 ->
    open_error srv1 (scrape_filename srv1) = None ->
    open_error srv1 "data.json" = None ->
    get_json srv2 = inr (JDict items2) -> items_get items2 "url" = JStr u2 ->
    is_valid_url u2 = true -> scrape_website (world srv2) u2 = Ok doc2 ->
    open_error srv2 (scrape_filename srv2) = None ->
    open_error srv2 "data.json" = None ->
    let fs2 := snd (api_scrape srv2 (snd (api_scrape srv1 fs))) in
    fs2 "data.json"%string = Some (json_of_document doc2)
    /\ fs2 (scrape_filename srv2) = Some (json_of_document doc2)
    /\ (strftime_now srv1 <> strftime_now srv2 ->
        fs2 (scrape_filename srv1) = Some (json_of_document doc1))
    /\ (strftime_now srv1 = strftime_now srv2 ->
        fs2 (scrape_filename srv1) = Some (json_of_document doc2)).
Proof.
  intros srv1 srv2 fs items1 items2 u1 u2 doc1 doc2
         Hj1 Hu1 Hv1 Hs1 Ha1 Hb1 Hj2 Hu2 Hv2 Hs2 Ha2 Hb2 fs2. subst fs2.
  rewrite (api_scrape_success srv2 _ items2 u2 doc2 Hj2 Hu2 Hv2 Hs2 Ha2 Hb2).
  rewrite (api_scrape_success srv1 _ items1 u1 doc1 Hj1 Hu1 Hv1 Hs1 Ha1 Hb1).
  assert (Hn : forall srv, String.eqb (scrape_filename srv) "data.json" = false)
    by (intros srv; reflexivity).
  split; [|split; [|split]].
  - apply write_same.
  - rewrite write_other by apply Hn. apply write_same.
  - intros Hne. rewrite write_other by apply Hn.
    assert (E : String.eqb (scrape_filename srv1) (scrape_filename srv2) = false).
    { apply String.eqb_neq. unfold scrape_filename. intros E. apply Hne.
      injection E as E. exact (append_cancel_r _ _ _ E). }
    rewrite write_other by exact E. rewrite write_other by apply Hn.
    apply write_same.
  - intros Heq. rewrite write_other by apply Hn.
    replace (scrape_filename srv1) with (scrape_filename srv2)
      by (unfold scrape_filename; now rewrite Heq).
    apply write_same.
Qed.

Lemma api_scrape_twice_witness :
  exists doc2,
    scrape_website (world_of 200 "OK" mixed_page) example_url = Ok doc2
    /\ snd (api_scrape (server_at (world_of 200 "OK" mixed_page) example_url
                                  "20240101_000000")
                       (snd (api_scrape
                               (server_at (world_of 200 "OK" minimal_page) example_url
                                          "20240101_000000")
                               no_files)))
           "scraped_data/scrape_20240101_000000.json"%string
       = Some (json_of_document doc2).
Proof.
  eexists. split; [vm_compute; reflexivity|].
  match goal with
  | |- _ = Some (json_of_document ?d) =>
      assert (H2 : scrape_website (world_of 200 "OK" mixed_page) example_url = Ok d)
        by (vm_compute; reflexivity)
  end.
  assert (H1 : exists doc1,
             scrape_website (world_of 200 "OK" minimal_page) example_url = Ok doc1)
    by (eexists; vm_compute; reflexivity).
  destruct H1 as [doc1 H1].
  refine (proj2 (proj2 (proj2
            (api_scrape_twice
               (server_at (world_of 200 "OK" minimal_page) example_url "20240101_000000")
               (server_at (world_of 200 "OK" mixed_page) example_url "20240101_000000")
               no_files [("url", JStr example_url)] [("url", JStr example_url)]
               example_url example_url doc1 _
               eq_refl eq_refl _ H1 eq_refl eq_refl
               eq_refl eq_refl _ H2 eq_refl eq_refl))) eq_refl);
    vm_compute; reflexivity.
Defined.

(** *** Metadata *)

Lemma raise_for_status_ok_inv (response : requests.Response) :
  requests.raise_for_status response = Ok tt ->
  requests.status_code response < 400 \/ 600 <= requests.status_code response.
Proof.
  intros H. destruct (status_is_error_dec (requests.status_code response)) as [Hbad|Hok];
    [|exact Hok].
  exfalso. unfold requests.raise_for_status in H.
  destruct Hbad as [Hlo Hhi]. apply Nat.leb_le in Hlo. rewrite Hlo in H.
  destruct (requests.status_code response <? 500) eqn:H5; [discriminate|].
  apply Nat.ltb_ge, Nat.leb_le in H5. apply Nat.ltb_lt in Hhi.
  rewrite H5, Hhi in H. discriminate.
Qed.

Lemma scrape_website_metadata_inv w url doc :
  scrape_website w url = Ok doc ->
  exists response,
    requests_get w url = Ok response
    /\ requests.raise_for_status response = Ok tt
    /\ Metadata.url (metadata doc) = url
    /\ Metadata.scrape_timestamp (metadata doc) = datetime_now w
    /\ Metadata.status_code (metadata doc) = requests.status_code response
    /\ Metadata.content_type (metadata doc)
       = requests.headers_get response "content-type" ""
    /\ Metadata.content_length (metadata doc) = String.length (requests.content response).
Proof.
  intros H. apply scrape_website_Ok_try in H. unfold scrape_website_try in H.
  destruct (requests_get w url) as [response|e] eqn:Hg; [|discriminate].
  cbn [bind] in H.
  destruct (requests.raise_for_status response) as [[]|e] eqn:Hs; [|discriminate].
  cbn [bind] in H.
  destruct (BeautifulSoup w (requests.content response)) as [soup|e]; [|discriminate].
  cbn [bind] in H.
  destruct (extract_links url _) as [ls|e]; [|discriminate]. cbn [bind] in H.
  destruct (extract_images url _) as [imgs|e]; [|discriminate]. cbn [bind] in H.
  injection H as <-. exists response. repeat split; auto.
Qed.

Lemma find_first_match {A : Type} (f : A -> bool) (pre : list A) (x : A) (post : list A) :
  Forall (fun y => f y = false) pre -> f x = true ->
  List.find f (pre ++ x :: post) = Some x.
Proof.
  induction 1 as [|y pre Hy _ IH]; intros Hx; simpl; [now rewrite Hx|].
  rewrite Hy. now apply IH.
Qed.

Lemma find_no_match {A : Type} (f : A -> bool) (xs : list A) :
  Forall (fun y => f y = false) xs -> List.find f xs = None.
Proof. induction 1 as [|y xs Hy _ IH]; simpl; [reflexivity|now rewrite Hy]. Qed.

(** X20. The metadata of a produced document names the URL that was asked
    for (not the URL the response came from), the status code of the
    response, which is never from 400 to 599, the length of the body, and
    the response's content type: the value of the first header whose name
    is [content-type] without regard to case, wherever it stands among the
    headers, and the empty string when no header has that name. *)
Theorem metadata_of_response :
  forall w url response doc,
    requests_get w url = Ok response ->
    scrape_website w url = Ok doc ->
    let m := metadata doc in
    let other := fun kv : string * string =>
                   PyStr.lower (fst kv) <> "content-type"%string in
    Metadata.url m = url
    /\ Metadata.status_code m = requests.status_code response
    /\ (Metadata.status_code m < 400 \/ 600 <= Metadata.status_code m)
    /\ Metadata.content_length m = String.length (requests.content response)
    /\ (forall before name value after,
           requests.headers response = before ++ (name, value) :: after ->
           Forall other before ->
           PyStr.lower name = "content-type"%string ->
           Metadata.content_type m = value)
    /\ (Forall other (requests.headers response) ->
        Metadata.content_type m = ""%string).
Proof.
  intros w url response doc Hg H m other. subst m.
  destruct (scrape_website_metadata_inv _ _ _ H)
    as (response' & Hg' & Hs & Hu & _ & Hst & Hct & Hcl).
  rewrite Hg in Hg'. injection Hg' as <-.
  rewrite Hu, Hst, Hct, Hcl.
  assert (Hother : forall kvs,
             Forall other kvs ->
             Forall (fun kv => String.eqb (PyStr.lower (fst kv))
                                          (PyStr.lower "content-type") = false) kvs).
  { intros kvs Hk. eapply Forall_impl; [|exact Hk]. intros kv Hkv.
    now apply String.eqb_neq. }
  repeat split.
  - now apply raise_for_status_ok_inv.
  - intros before name value after Hh Hb Hn. unfold requests.headers_get.
    rewrite Hh, (find_first_match _ before (name, value) after (Hother _ Hb)).
    + reflexivity.
    + cbn [fst]. rewrite Hn. reflexivity.
  - intros Hall. unfold requests.headers_get.
    now rewrite (find_no_match _ _ (Hother _ Hall)).
Qed.

Lemma metadata_of_response_witness :
  exists doc,
    scrape_website
      (world_with_headers [("Server", "nginx"); ("ETag", "abc");
                           ("CONTENT-Type", "text/html; charset=utf-8");
                           ("Content-Length", "13")]%string minimal_page)
      example_url = Ok doc
    /\ Metadata.content_type (metadata doc) = "text/html; charset=utf-8"%string.
Proof.
  eexists. split; [vm_compute; reflexivity|].
  match goal with
  | |- Metadata.content_type (metadata ?d) = _ =>
      assert (H : scrape_website
                    (world_with_headers [("Server", "nginx"); ("ETag", "abc");
                                         ("CONTENT-Type", "text/html; charset=utf-8");
                                         ("Content-Length", "13")]%string minimal_page)
                    example_url = Ok d)
        by (vm_compute; reflexivity)
  end.
  assert (Hg : requests_get
                 (world_with_headers [("Server", "nginx"); ("ETag", "abc");
                                      ("CONTENT-Type", "text/html; charset=utf-8");
                                      ("Content-Length", "13")]%string minimal_page)
                 example_url
               = Ok (requests.mkResponse 200 "OK" example_url
                       [("Server", "nginx"); ("ETag", "abc");
                        ("CONTENT-Type", "text/html; charset=utf-8");
                        ("Content-Length", "13")]%string "<html></html>"))
    by reflexivity.
  destruct (metadata_of_response _ _ _ _ Hg H) as (_ & _ & _ & _ & Hct & _).
  apply (Hct [("Server", "nginx"); ("ETag", "abc")]%string "CONTENT-Type"%string
             "text/html; charset=utf-8"%string [("Content-Length", "13")]%string).
  - reflexivity.
  - repeat constructor; cbn [fst]; vm_compute; discriminate.
  - reflexivity.
Defined.

(** X21. The placeholder ["No Title"] stands in only for a missing [title]
    element: a [title] element that is empty, or holds more than one node,
    gives the empty title. *)
Theorem title_without_string :
  forall w url response soup doc name attrs contents,
    requests_get w url = Ok response ->
    BeautifulSoup w (requests.content response) = Ok soup ->
    scrape_website w url = Ok doc ->
    bs4.find ["title"] [] soup = Some (bs4.Tag name attrs contents) ->
    List.length contents <> 1 ->
    Metadata.title (metadata doc) = ""%string.
Proof.
  intros w url response soup doc name attrs contents Hg Hp H Hf Hc.
  destruct (scrape_website_inv_at _ _ _ _ _ Hg Hp H) as (_ & _ & _ & _ & _ & Ht).
  rewrite Ht, Hf.
  destruct contents as [|c [|c' rest]]; try reflexivity.
  now contradiction Hc.
Qed.

Lemma title_without_string_witness :
  exists doc,
    scrape_website (world_of 200 "OK" split_title_page) example_url = Ok doc
    /\ Metadata.title (metadata doc) = ""%string.
Proof.
  eexists. split; [vm_compute; reflexivity|].
  match goal with
  | |- Metadata.title (metadata ?d) = _ =>
      assert (H : scrape_website (world_of 200 "OK" split_title_page) example_url = Ok d)
        by (vm_compute; reflexivity)
  end.
  assert (Hg : requests_get (world_of 200 "OK" split_title_page) example_url
               = Ok (ok_response example_url)) by reflexivity.
  apply (title_without_string _ _ _ split_title_page _ "title"%string []
           [bs4.NavigableString "A"; bs4.Comment "note"] Hg eq_refl H).
  - vm_compute. reflexivity.
  - simpl. lia.
Defined.
